(** * Tello dashboard: the telemetry channel and the command dispatcher

  A shallow embedding of the two hooks of the front end,
  [hooks/useWebSocket.ts] and [hooks/useDroneCommands.ts], and the
  properties of the telemetry channel and of the command dispatcher
  that the design document states about them.

  - [JS]: the fragment of JavaScript values and completions the hooks use.
  - [UseWebSocket]: the hook's four state slots, its three socket
    handlers, [connect], [disconnect], the clean-up effect, and the
    delivery of browser events to them.
  - [UseDroneCommands]: [fetchWithBody] and the nine request builders. *)

From Stdlib Require Import Floats.PrimFloat.
From stdpp Require Import base option strings list.

Set Warnings "-register-all".

(* ===================================================================== *)
(** ** JavaScript values and completions *)
(* ===================================================================== *)

Module JS.

(** What [JSON.parse] can build, plus [undefined].  Numbers are IEEE 754
    doubles; an object keeps its own properties in insertion order. *)
Inductive JSValue : Type :=
| JUndefined
| JNull
| JBool (b : bool)
| JNumber (n : float)
| JString (s : string)
| JArray (items : list JSValue)
| JObject (props : list (string * JSValue)).

(** The exceptions that occur: the two built-in ones and [new Error(msg)]. *)
Inductive JSError : Type :=
| SyntaxError
| TypeError
| Error (message : string).

(** How an evaluation ends: with a value, or with a thrown exception
    (for an [async] function: a resolved or a rejected promise). *)
Inductive Completion (A : Type) : Type :=
| Normal (a : A)
| Throw (e : JSError).
Arguments Normal {A} a.
Arguments Throw {A} e.

Definition is_normal {A} (c : Completion A) : bool :=
  match c with Normal _ => true | Throw _ => false end.

Fixpoint own_property (props : list (string * JSValue)) (name : string)
  : option JSValue :=
  match props with
  | [] => None
  | (k, v) :: rest => if bool_decide (k = name) then Some v
                      else own_property rest name
  end.

(** [v.name] for the member names the hooks read ([type], [data],
    [frame]), none of which is defined on a built-in prototype: reading
    a member of [null] or [undefined] throws a [TypeError]; an object
    yields its own property or [undefined]; a boolean, a number, a
    string or an array has no such member and yields [undefined]. *)
Definition get (v : JSValue) (name : string) : Completion JSValue :=
  match v with
  | JUndefined | JNull => Throw TypeError
  | JObject props => Normal (default JUndefined (own_property props name))
  | JBool _ | JNumber _ | JString _ | JArray _ => Normal JUndefined
  end.

(** [v === 'literal']: strict equality against a string literal. *)
Definition strictEquals (v : JSValue) (literal : string) : bool :=
  match v with
  | JString s => bool_decide (s = literal)
  | _ => false
  end.

(** The text of an inbound frame ([event.data]), represented by what
    [JSON.parse] makes of it: text that is not JSON, or the text of a
    value. *)
Inductive MessageData : Type :=
| Unparsable
| TextOf (v : JSValue).

Definition JSON_parse (text : MessageData) : Completion JSValue :=
  match text with
  | Unparsable => Throw SyntaxError
  | TextOf v => Normal v
  end.

(** The text [JSON.stringify] prints for a value, kept symbolic. *)
Inductive JSONText : Type :=
| JSON_stringify (v : JSValue).

End JS.
Export JS.

(* ===================================================================== *)
(** ** hooks/useWebSocket.ts *)
(* ===================================================================== *)

Module UseWebSocket.

(** *** The browser's sockets *)

Inductive ReadyState : Type := CONNECTING | OPEN | CLOSING | CLOSED.

Record WebSocket : Type := mkWebSocket {
  url : string;
  readyState : ReadyState
}.

(** A socket handle is the position of the socket among those created. *)
Abbreviation Handle := nat.

(** *** State: the hook's four [useState] slots and the sockets *)

Record State : Type := mkState {
  ws : option Handle;          (* useState<WebSocket | null>(null) *)
  isConnected : bool;          (* useState(false) *)
  droneState : JSValue;        (* useState<DroneState | null>(null) *)
  videoFrame : JSValue;        (* useState<string | null>(null) *)
  sockets : list WebSocket;    (* every socket created so far *)
  closeCalls : list Handle     (* the calls of close(), oldest first *)
}.

Definition initial : State :=
  {| ws := None; isConnected := false; droneState := JNull;
     videoFrame := JNull; sockets := []; closeCalls := [] |}.

(** What a component that uses the hook reads from it. *)
Record Published : Type := mkPublished {
  pub_isConnected : bool;
  pub_droneState : JSValue;
  pub_videoFrame : JSValue
}.

Definition published (w : State) : Published :=
  {| pub_isConnected := isConnected w;
     pub_droneState := droneState w;
     pub_videoFrame := videoFrame w |}.

(** *** Code that runs on the state and may throw *)

Definition M (A : Type) : Type := State -> Completion A * State.

Definition ret {A} (a : A) : M A := fun w => (Normal a, w).

Definition bind {A B} (m : M A) (k : A -> M B) : M B :=
  fun w => match m w with
           | (Normal a, w') => k a w'
           | (Throw e, w') => (Throw e, w')
           end.

Definition lift {A} (c : Completion A) : M A := fun w => (c, w).

Notation "'let*' x ':=' m 'in' k" := (bind m (fun x => k))
  (at level 10, x name, m at level 100, k at level 200).
Notation "m ';;' k" := (bind m (fun _ => k))
  (at level 100, k at level 200, right associativity).

Definition setWs (h : option Handle) : M unit := fun w =>
  (Normal tt,
   mkState h (isConnected w) (droneState w) (videoFrame w)
           (sockets w) (closeCalls w)).

Definition setIsConnected (b : bool) : M unit := fun w =>
  (Normal tt,
   mkState (ws w) b (droneState w) (videoFrame w) (sockets w) (closeCalls w)).

Definition setDroneState (v : JSValue) : M unit := fun w =>
  (Normal tt,
   mkState (ws w) (isConnected w) v (videoFrame w) (sockets w) (closeCalls w)).

Definition setVideoFrame (v : JSValue) : M unit := fun w =>
  (Normal tt,
   mkState (ws w) (isConnected w) (droneState w) v (sockets w) (closeCalls w)).

Definition with_sockets (l : list WebSocket) (w : State) : State :=
  mkState (ws w) (isConnected w) (droneState w) (videoFrame w) l (closeCalls w).

(** [new WebSocket(url)]: a new socket, connecting. *)
Definition new_WebSocket (u : string) : M Handle := fun w =>
  (Normal (length (sockets w)),
   with_sockets (sockets w ++ [mkWebSocket u CONNECTING]) w).

(** What [close()] does to a socket: a connecting or open socket starts
    closing; on a closing or closed socket the call does nothing. *)
Definition closing (s : WebSocket) : WebSocket :=
  match readyState s with
  | CONNECTING | OPEN => mkWebSocket (url s) CLOSING
  | CLOSING | CLOSED => s
  end.

(** [h.close()] *)
Definition WebSocket_close (h : Handle) : M unit := fun w =>
  (Normal tt,
   mkState (ws w) (isConnected w) (droneState w) (videoFrame w)
           (alter closing h (sockets w)) (closeCalls w ++ [h])).

(** *** The handlers [connect] installs on every socket it creates *)

Definition onopen : M unit :=
  setIsConnected true.

Definition onmessage (event_data : MessageData) : M unit :=
  let* data := lift (JSON_parse event_data) in
  let* type := lift (get data "type") in
  if strictEquals type "state_update" then
    let* payload := lift (get data "data") in
    setDroneState payload
  else if strictEquals type "video_frame" then
    let* payload := lift (get data "data") in
    let* frame := lift (get payload "frame") in
    setVideoFrame frame
  else ret tt.

Definition onclose : M unit :=
  setIsConnected false.

(** *** The hook's two callbacks and its effect *)

Definition connect : M unit :=
  let* websocket := new_WebSocket "ws://localhost:8000/ws" in
  setWs (Some websocket).

(** [disconnect] is rebuilt whenever [ws] changes (its dependency list
    is [[ws]]), so it reads the current handle. *)
Definition disconnect : M unit := fun w =>
  match ws w with
  | Some h => (WebSocket_close h ;; setWs None) w
  | None => ret tt w
  end.

(** The function the effect returns, closed over the handle [h] of the
    render that installed it. *)
Definition cleanup (h : option Handle) : M unit :=
  match h with
  | Some s => WebSocket_close s
  | None => ret tt
  end.

(** The effect depends on [[ws]]: when a render finds the handle changed,
    the clean-up of the previous render runs. *)
Definition flushEffects (previous : option Handle) : M unit := fun w =>
  if decide (ws w = previous) then ret tt w else cleanup previous w.

(** One task of the event loop: the code runs to its end, an exception
    that escapes it is reported and dropped, then the component renders
    again and its effects are flushed. *)
Definition task (code : M unit) (w : State) : State :=
  snd (flushEffects (ws w) (snd (code w))).

(** *** Events *)

Inductive Event : Type :=
| Call_connect
| Call_disconnect
| Ev_open (h : Handle)
| Ev_message (h : Handle) (data : MessageData)
| Ev_close (h : Handle).

Definition ready (h : Handle) (w : State) : option ReadyState :=
  readyState <$> sockets w !! h.

Definition set_ready (h : Handle) (r : ReadyState) (w : State) : State :=
  with_sockets (alter (fun s => mkWebSocket (url s) r) h (sockets w)) w.

(** A socket opens only while connecting, delivers messages only while
    open, and closes once, from any other state.  [None]: the event
    cannot happen in this state. *)
Definition step (ev : Event) (w : State) : option State :=
  match ev with
  | Call_connect => Some (task connect w)
  | Call_disconnect => Some (task disconnect w)
  | Ev_open h =>
      match ready h w with
      | Some CONNECTING => Some (task onopen (set_ready h OPEN w))
      | _ => None
      end
  | Ev_message h data =>
      match ready h w with
      | Some OPEN => Some (task (onmessage data) w)
      | _ => None
      end
  | Ev_close h =>
      match ready h w with
      | Some CONNECTING | Some OPEN | Some CLOSING =>
          Some (task onclose (set_ready h CLOSED w))
      | _ => None
      end
  end.

Fixpoint run (trace : list Event) (w : State) : option State :=
  match trace with
  | [] => Some w
  | ev :: rest =>
      match step ev w with
      | Some w' => run rest w'
      | None => None
      end
  end.


(** A socket that can still open or deliver messages. *)
Definition live (s : WebSocket) : bool :=
  match readyState s with
  | CONNECTING | OPEN => true
  | CLOSING | CLOSED => false
  end.

(** *** The vocabulary of the design document *)

(** The field [name] of an envelope: the value stored under it, and
    [undefined] where there is none. *)
Definition field (v : JSValue) (name : string) : JSValue :=
  match v with
  | JObject props => default JUndefined (own_property props name)
  | _ => JUndefined
  end.

(** An envelope [{type, data}] carrying the tag [tag]. *)
Definition tagged (tag : string) (v : JSValue) : bool :=
  strictEquals (field v "type") tag.

Definition has_type_field (v : JSValue) : bool :=
  match v with
  | JObject props => bool_decide (is_Some (own_property props "type"))
  | _ => false
  end.

(** A malformed payload: not valid JSON, or JSON without a [type] field. *)
Definition malformed (d : MessageData) : Prop :=
  match d with
  | Unparsable => True
  | TextOf v => has_type_field v = false
  end.

(** The value received by an event, when the event is a message with tag
    [tag]. *)
Definition received (tag : string) (ev : Event) : option JSValue :=
  match ev with
  | Ev_message _ (TextOf v) => if tagged tag v then Some v else None
  | _ => None
  end.

(** The [data] payloads of the [state_update] messages of a trace, in the
    order of receipt. *)
Definition state_updates (trace : list Event) : list JSValue :=
  (fun v => field v "data") <$> omap (received "state_update") trace.

(** The [data.frame] fields of the [video_frame] messages of a trace, in
    the order of receipt. *)
Definition video_frames (trace : list Event) : list JSValue :=
  (fun v => field (field v "data") "frame")
    <$> omap (received "video_frame") trace.

(** A value that has members to read: anything but [null] and [undefined]. *)
Definition has_members (v : JSValue) : bool :=
  match v with
  | JUndefined | JNull => false
  | _ => true
  end.

(** The [video_frame] messages whose [data] has members to read. *)
Definition framed (ev : Event) : option JSValue :=
  match received "video_frame" ev with
  | Some v => if has_members (field v "data") then Some v else None
  | None => None
  end.

Definition stored_frames (trace : list Event) : list JSValue :=
  (fun v => field (field v "data") "frame") <$> omap framed trace.

(** The state a message leaves: the snapshot slot written, the frame slot
    written, or nothing written. *)
Definition after_message (d : MessageData) (w : State) : State :=
  match d with
  | Unparsable => w
  | TextOf v =>
      if tagged "state_update" v then snd (setDroneState (field v "data") w)
      else if tagged "video_frame" v then
        if has_members (field v "data")
        then snd (setVideoFrame (field (field v "data") "frame") w)
        else w
      else w
  end.

(** The socket [connect] creates. *)
Definition socket_new : WebSocket :=
  mkWebSocket "ws://localhost:8000/ws" CONNECTING.

(** What an event does to the connection state, by its kind. *)
Definition connection_event (ev : Event) : option bool :=
  match ev with
  | Ev_open _ => Some true
  | Ev_close _ => Some false
  | Call_connect | Call_disconnect | Ev_message _ _ => None
  end.

(** One connection at a time: the handle the hook owns names a socket, and
    no other socket is connecting or open. *)
Definition single_connection (w : State) : Prop :=
  (forall h, ws w = Some h -> h < length (sockets w))
  /\ (forall k s, sockets w !! k = Some s -> live s = true -> ws w = Some k).


(** *** Messages and states for the examples *)

Definition state_update (payload : JSValue) : MessageData :=
  TextOf (JObject [("type", JString "state_update"); ("data", payload)]).

Definition video_frame (frame : JSValue) : MessageData :=
  TextOf (JObject [("type", JString "video_frame");
                   ("data", JObject [("frame", frame)])]).

Definition battery (level : float) : JSValue :=
  JObject [("battery", JNumber level)].

(** A hook with one open socket, a snapshot and a frame. *)
Definition streaming : State :=
  mkState (Some 0) true (battery 80) (JString "AAAA")
          [mkWebSocket "ws://localhost:8000/ws" OPEN] [].

(** *** Teardown and bookkeeping *)


Definition is_connect_call (ev : Event) : bool :=
  match ev with
  | Call_connect => true
  | _ => false
  end.

Definition is_call (ev : Event) : bool :=
  match ev with
  | Call_connect | Call_disconnect => true
  | Ev_open _ | Ev_message _ _ | Ev_close _ => false
  end.

Definition is_message (ev : Event) : bool :=
  match ev with
  | Ev_message _ _ => true
  | _ => false
  end.


End UseWebSocket.

(* ===================================================================== *)
(** ** hooks/useDroneCommands.ts *)
(* ===================================================================== *)

Module UseDroneCommands.

Definition API_BASE : string := "http://localhost:8000".

(** The second argument of [fetch]. *)
Record Request : Type := mkRequest {
  req_url : string;
  method : string;
  headers : list (string * string);
  body : JSONText
}.

(** The response of the backend: its status and, for [response.json()],
    the value its body parses to ([None]: the body is not JSON). *)
Record Response : Type := mkResponse {
  status : Z;
  parsed_body : option JSValue
}.

(** [response.ok]: the status is in the range 200 to 299. *)
Definition ok (r : Response) : bool :=
  bool_decide (200 <= status r <= 299)%Z.

(** [response.json()] *)
Definition json (r : Response) : Completion JSValue :=
  match parsed_body r with
  | Some v => Normal v
  | None => Throw SyntaxError
  end.

(** The backend and the network between: what the requests issued so far,
    the last being the current one, are answered with ([None]: no
    response arrives and [fetch] rejects). *)
Definition Network : Type := list Request -> option Response.

(** Code that issues requests: it runs on the log of the requests issued,
    oldest first, and ends as a promise settles. *)
Definition Async (A : Type) : Type :=
  Network -> list Request -> Completion A * list Request.

Definition await {A B} (m : Async A) (k : A -> Async B) : Async B :=
  fun net log => match m net log with
                 | (Normal a, log') => k a net log'
                 | (Throw e, log') => (Throw e, log')
                 end.

Definition settle {A} (c : Completion A) : Async A := fun _ log => (c, log).

Definition fetch (req : Request) : Async Response := fun net log =>
  let log' := log ++ [req] in
  match net log' with
  | Some r => (Normal r, log')
  | None => (Throw TypeError, log')
  end.

Definition fetchWithBody (endpoint : string) (body : JSValue) : Async JSValue :=
  await (fetch {| req_url := API_BASE +:+ endpoint;
                  method := "POST";
                  headers := [("Content-Type", "application/json")];
                  body := JSON_stringify body |})
    (fun response =>
       if negb (ok response) then settle (Throw (Error "Command failed"))
       else settle (json response)).

(** The default of [fetchWithBody]'s second parameter: [{}]. *)
Definition no_body : JSValue := JObject [].

Definition connect : Async JSValue := fetchWithBody "/connect" no_body.
Definition disconnect : Async JSValue := fetchWithBody "/disconnect" no_body.
Definition takeoff : Async JSValue := fetchWithBody "/takeoff" no_body.
Definition land : Async JSValue := fetchWithBody "/land" no_body.
Definition move (direction : string) (distance : float) : Async JSValue :=
  fetchWithBody "/move"
    (JObject [("direction", JString direction); ("distance", JNumber distance)]).
Definition rotate (direction : string) (degrees : float) : Async JSValue :=
  fetchWithBody "/rotate"
    (JObject [("direction", JString direction); ("degrees", JNumber degrees)]).
Definition flip (direction : string) : Async JSValue :=
  fetchWithBody "/flip" (JObject [("direction", JString direction)]).
Definition setSpeed (speed : float) : Async JSValue :=
  fetchWithBody "/speed" (JObject [("speed", JNumber speed)]).
Definition toggleTracking (enabled : bool) : Async JSValue :=
  fetchWithBody "/track_object" (JObject [("enabled", JBool enabled)]).

(** [useMutation(f).mutateAsync]: the mutation function is called once on
    the variables, and its promise is the result (a mutation is not
    retried unless asked for, and the hook asks for nothing). *)
Definition mutateAsync {V : Type} (mutationFn : V -> Async JSValue)
  (variables : V) : Async JSValue :=
  mutationFn variables.

(** The variables of the hook's [move]: [{ direction, distance }]. *)
Record MoveVariables : Type := mkMoveVariables {
  mv_direction : string;
  mv_distance : float
}.

(** The [move] the hook returns. *)
Definition useDroneCommands_move : MoveVariables -> Async JSValue :=
  mutateAsync (fun variables =>
                 move (mv_direction variables) (mv_distance variables)).

(** The variables of the hook's [rotate]: [{ direction, degrees }]. *)
Record RotateVariables : Type := mkRotateVariables {
  rv_direction : string;
  rv_degrees : float
}.

(** The [rotate] the hook returns. *)
Definition useDroneCommands_rotate : RotateVariables -> Async JSValue :=
  mutateAsync (fun variables =>
                 rotate (rv_direction variables) (rv_degrees variables)).

(** The nine operations of the dispatcher with their parameters. *)
Inductive Command : Type :=
| Connect
| Disconnect
| Takeoff
| Land
| Move (direction : string) (distance : float)
| Rotate (direction : string) (degrees : float)
| Flip (direction : string)
| SetSpeed (speed : float)
| ToggleTracking (enabled : bool).

Definition dispatch (c : Command) : Async JSValue :=
  match c with
  | Connect => connect
  | Disconnect => disconnect
  | Takeoff => takeoff
  | Land => land
  | Move direction distance => move direction distance
  | Rotate direction degrees => rotate direction degrees
  | Flip direction => flip direction
  | SetSpeed speed => setSpeed speed
  | ToggleTracking enabled => toggleTracking enabled
  end.

(** The endpoint and the request body of each operation, as the table of
    the design document lists them. *)
Definition endpoint (c : Command) : string :=
  match c with
  | Connect => "/connect"
  | Disconnect => "/disconnect"
  | Takeoff => "/takeoff"
  | Land => "/land"
  | Move _ _ => "/move"
  | Rotate _ _ => "/rotate"
  | Flip _ => "/flip"
  | SetSpeed _ => "/speed"
  | ToggleTracking _ => "/track_object"
  end.

Definition parameters (c : Command) : JSValue :=
  match c with
  | Connect | Disconnect | Takeoff | Land => JObject []
  | Move direction distance =>
      JObject [("direction", JString direction); ("distance", JNumber distance)]
  | Rotate direction degrees =>
      JObject [("direction", JString direction); ("degrees", JNumber degrees)]
  | Flip direction => JObject [("direction", JString direction)]
  | SetSpeed speed => JObject [("speed", JNumber speed)]
  | ToggleTracking enabled => JObject [("enabled", JBool enabled)]
  end.

Definition post (c : Command) : Request :=
  {| req_url := API_BASE +:+ endpoint c;
     method := "POST";
     headers := [("Content-Type", "application/json")];
     body := JSON_stringify (parameters c) |}.


End UseDroneCommands.

(* ===================================================================== *)
(** ** components/DroneControlPanel.tsx *)
(* ===================================================================== *)

Module DroneControlPanel.

(** [DroneControlPanelProps]: the connection state and nine callbacks,
    each of which returns a promise of type [H]. *)
Record Props (H : Type) : Type := mkProps {
  isConnected : bool;
  onConnect : H;
  onDisconnect : H;
  onTakeoff : H;
  onLand : H;
  onMove : string -> float -> H;
  onRotate : string -> float -> H;
  onFlip : string -> H;
  onSpeedChange : JSValue -> H;
  onToggleTracking : bool -> H
}.
Arguments mkProps {H}.
Arguments isConnected {H}.
Arguments onConnect {H}.
Arguments onDisconnect {H}.
Arguments onTakeoff {H}.
Arguments onLand {H}.
Arguments onMove {H}.
Arguments onRotate {H}.
Arguments onFlip {H}.
Arguments onSpeedChange {H}.
Arguments onToggleTracking {H}.

(** The panel's own state: [useState(50)] and [useState(false)]. *)
Record Local : Type := mkLocal {
  speed : JSValue;
  isTracking : bool
}.

Definition mounted : Local :=
  {| speed := JNumber 50; isTracking := false |}.

(** What running an event handler of the panel comes to: the local state
    it sets and the callbacks it calls, in order. *)
Record Effect (H : Type) : Type := mkEffect {
  after : Local;
  called : list H
}.
Arguments mkEffect {H}.
Arguments after {H}.
Arguments called {H}.

(** [value[0]] *)
Definition first (value : list float) : JSValue :=
  match value with
  | x :: _ => JNumber x
  | [] => JUndefined
  end.

Definition handleSpeedChange {H} (props : Props H) (st : Local)
  (value : list float) : Effect H :=
  let newSpeed := first value in
  {| after := mkLocal newSpeed (isTracking st);
     called := [onSpeedChange props newSpeed] |}.

Definition handleToggleTracking {H} (props : Props H) (st : Local) : Effect H :=
  {| after := mkLocal (speed st) (negb (isTracking st));
     called := [onToggleTracking props (negb (isTracking st))] |}.

(** An [onClick] that is a callback of the props, or an arrow function
    calling one: no local state is set. *)
Definition calling {H} (st : Local) (callback : H) : Effect H :=
  {| after := st; called := [callback] |}.

(** The elements of the panel a user can act on: a [Button] with its
    content (its text, or the name of its icon), its [disabled] and its
    [onClick]; the [Slider] with its props. *)
Inductive Element (H : Type) : Type :=
| Button (content : string) (disabled : bool) (onClick : Effect H)
| Slider (value : list JSValue) (min max step : float) (disabled : bool)
         (onValueChange : list float -> Effect H).
Arguments Button {H}.
Arguments Slider {H}.

(** The controls the panel renders, in document order.  A [Button]
    without a [disabled] prop is enabled. *)
Definition render {H} (props : Props H) (st : Local) : list (Element H) :=
  [ Button (if isConnected props then "Disconnect" else "Connect")
           false
           (calling st (if isConnected props then onDisconnect props
                        else onConnect props));
    Button (if isConnected props then "Land" else "Take Off")
           (negb (isConnected props))
           (calling st (if isConnected props then onLand props
                        else onTakeoff props));
    Button "ArrowUp" (negb (isConnected props))
           (calling st (onMove props "forward" 30));
    Button "ArrowLeft" (negb (isConnected props))
           (calling st (onMove props "left" 30));
    Button "ArrowDown" (negb (isConnected props))
           (calling st (onMove props "down" 30));
    Button "ArrowRight" (negb (isConnected props))
           (calling st (onMove props "right" 30));
    Button "RotateCcw" (negb (isConnected props))
           (calling st (onRotate props "counterclockwise" 90));
    Button "RotateCw" (negb (isConnected props))
           (calling st (onRotate props "clockwise" 90));
    Slider [speed st] 0 100 10 (negb (isConnected props))
           (handleSpeedChange props st);
    Button "Flip Forward" (negb (isConnected props))
           (calling st (onFlip props "forward"));
    Button (if isTracking st then "Stop Tracking" else "Track Object")
           (negb (isConnected props))
           (handleToggleTracking props st) ].

(** What a user does: a click on the element at a position, or a move of
    the thumb of the slider at a position to a value. *)
Inductive Gesture : Type :=
| Click (position : nat)
| Slide (position : nat) (value : list float).

(** A disabled element ignores the gesture, and so does an element of the
    other kind or a position where there is none. *)
Definition react {H} (props : Props H) (st : Local) (g : Gesture) : Effect H :=
  match g with
  | Click i =>
      match render props st !! i with
      | Some (Button _ false onClick) => onClick
      | _ => {| after := st; called := [] |}
      end
  | Slide i value =>
      match render props st !! i with
      | Some (Slider _ _ _ _ false onValueChange) => onValueChange value
      | _ => {| after := st; called := [] |}
      end
  end.

(** The callbacks by name, to tell which one a gesture reaches. *)
Inductive Callback : Type :=
| OnConnect
| OnDisconnect
| OnTakeoff
| OnLand
| OnMove (direction : string) (distance : float)
| OnRotate (direction : string) (degrees : float)
| OnFlip (direction : string)
| OnSpeedChange (speed : JSValue)
| OnToggleTracking (enabled : bool).

Definition named (connected : bool) : Props Callback :=
  mkProps connected OnConnect OnDisconnect OnTakeoff OnLand
          OnMove OnRotate OnFlip OnSpeedChange OnToggleTracking.

(** The props with a function for each named callback. *)
Definition props_of {H} (connected : bool) (callback : Callback -> H) : Props H :=
  mkProps connected
          (callback OnConnect) (callback OnDisconnect)
          (callback OnTakeoff) (callback OnLand)
          (fun direction distance => callback (OnMove direction distance))
          (fun direction degrees => callback (OnRotate direction degrees))
          (fun direction => callback (OnFlip direction))
          (fun speed => callback (OnSpeedChange speed))
          (fun enabled => callback (OnToggleTracking enabled)).

End DroneControlPanel.

(* ===================================================================== *)
(** ** components/DroneController.tsx *)
(* ===================================================================== *)

Module DroneController.
Import UseDroneCommands.

(** *** Toasts *)

Inductive Variant : Type :=
| variant_default            (* "default" *)
| destructive.               (* "destructive" *)

(** A text on display: a string of the source, or the [message] the
    engine gave a built-in error. *)
Inductive Text : Type :=
| Literal (s : string)
| MessageOf (e : JSError).

Record Toast : Type := mkToast {
  title : string;
  description : Text;
  variant : Variant
}.

(** [error instanceof Error]: every exception of the model is one. *)
Definition instanceof_Error (error : JSError) : bool :=
  match error with
  | SyntaxError | TypeError | Error _ => true
  end.

(** [error.message] *)
Definition message (error : JSError) : Text :=
  match error with
  | Error m => Literal m
  | SyntaxError | TypeError => MessageOf error
  end.

(** *** State: the channel, the requests issued, the toasts shown *)

Record App : Type := mkApp {
  channel : UseWebSocket.State;
  requests : list Request;
  toasts : list Toast
}.

Definition started : App :=
  {| channel := UseWebSocket.initial; requests := []; toasts := [] |}.

(** An [async] function of the component.  It is run on the state in which
    the response to its request arrives: what the channel delivered while
    the request was in flight is part of that state. *)
Definition AppM (A : Type) : Type := Network -> App -> Completion A * App.

Definition pure {A} (a : A) : AppM A := fun _ app => (Normal a, app).

Definition andThen {A B} (m : AppM A) (k : A -> AppM B) : AppM B :=
  fun net app => match m net app with
                 | (Normal a, app') => k a net app'
                 | (Throw e, app') => (Throw e, app')
                 end.

Notation "m '>>' k" := (andThen m (fun _ => k))
  (at level 100, k at level 200, right associativity).

(** [try { body } catch (error) { handler }] *)
Definition try_catch {A} (body : AppM A) (handler : JSError -> AppM A) : AppM A :=
  fun net app => match body net app with
                 | (Normal a, app') => (Normal a, app')
                 | (Throw e, app') => handler e net app'
                 end.

(** A command of [useDroneCommands], on the log of the requests. *)
Definition command {A} (op : Async A) : AppM A := fun net app =>
  (fst (op net (requests app)),
   mkApp (channel app) (snd (op net (requests app))) (toasts app)).

(** A callback of [useWebSocket], with the render that follows it. *)
Definition hook (code : UseWebSocket.M unit) : AppM unit := fun _ app =>
  (fst (code (channel app)),
   mkApp (UseWebSocket.task code (channel app)) (requests app) (toasts app)).

Definition toast (t : Toast) : AppM unit := fun _ app =>
  (Normal tt, mkApp (channel app) (requests app) (toasts app ++ [t])).

(** *** The callbacks of [useDroneCommands], as the hook returns them *)

Definition connect : AppM JSValue :=
  command (mutateAsync (fun _ : unit => UseDroneCommands.connect) tt).
Definition disconnect : AppM JSValue :=
  command (mutateAsync (fun _ : unit => UseDroneCommands.disconnect) tt).
Definition takeoff : AppM JSValue :=
  command (mutateAsync (fun _ : unit => UseDroneCommands.takeoff) tt).
Definition land : AppM JSValue :=
  command (mutateAsync (fun _ : unit => UseDroneCommands.land) tt).
Definition move (variables : MoveVariables) : AppM JSValue :=
  command (useDroneCommands_move variables).
Definition rotate (variables : RotateVariables) : AppM JSValue :=
  command (useDroneCommands_rotate variables).
Definition flip (direction : string) : AppM JSValue :=
  command (mutateAsync UseDroneCommands.flip direction).
(** [setSpeed] on whatever value reaches it at run time. *)
Definition setSpeed (speed : JSValue) : AppM JSValue :=
  command (mutateAsync
             (fun speed => fetchWithBody "/speed" (JObject [("speed", speed)]))
             speed).
Definition toggleTracking (enabled : bool) : AppM JSValue :=
  command (mutateAsync UseDroneCommands.toggleTracking enabled).

(** *** The handlers of the component *)

Definition handleConnect : AppM JSValue :=
  try_catch
    (connect >>
     hook UseWebSocket.connect >>
     toast {| title := "Connected";
              description := Literal "Successfully connected to the drone.";
              variant := variant_default |} >>
     pure JUndefined)
    (fun error =>
       toast {| title := "Connection Failed";
                description := if instanceof_Error error then message error
                               else Literal "Failed to connect";
                variant := destructive |} >>
       pure JUndefined).

Definition handleDisconnect : AppM JSValue :=
  try_catch
    (disconnect >>
     hook UseWebSocket.disconnect >>
     toast {| title := "Disconnected";
              description := Literal "Successfully disconnected from the drone.";
              variant := variant_default |} >>
     pure JUndefined)
    (fun error =>
       toast {| title := "Disconnection Failed";
                description := if instanceof_Error error then message error
                               else Literal "Failed to disconnect";
                variant := destructive |} >>
       pure JUndefined).

Definition handleMove (direction : string) (distance : float) : AppM JSValue :=
  try_catch
    (move (mkMoveVariables direction distance) >> pure JUndefined)
    (fun error =>
       toast {| title := "Movement Failed";
                description := if instanceof_Error error then message error
                               else Literal "Failed to move";
                variant := destructive |} >>
       pure JUndefined).

Definition handleRotate (direction : string) (degrees : float) : AppM JSValue :=
  try_catch
    (rotate (mkRotateVariables direction degrees) >> pure JUndefined)
    (fun error =>
       toast {| title := "Rotation Failed";
                description := if instanceof_Error error then message error
                               else Literal "Failed to rotate";
                variant := destructive |} >>
       pure JUndefined).

(** The props the component hands to the panel. *)
Definition panel_props (app : App) : DroneControlPanel.Props (AppM JSValue) :=
  {| DroneControlPanel.isConnected := UseWebSocket.isConnected (channel app);
     DroneControlPanel.onConnect := handleConnect;
     DroneControlPanel.onDisconnect := handleDisconnect;
     DroneControlPanel.onTakeoff := takeoff;
     DroneControlPanel.onLand := land;
     DroneControlPanel.onMove := handleMove;
     DroneControlPanel.onRotate := handleRotate;
     DroneControlPanel.onFlip := flip;
     DroneControlPanel.onSpeedChange := setSpeed;
     DroneControlPanel.onToggleTracking := toggleTracking |}.

(** The same props, callback by callback. *)
Definition wired (c : DroneControlPanel.Callback) : AppM JSValue :=
  match c with
  | DroneControlPanel.OnConnect => handleConnect
  | DroneControlPanel.OnDisconnect => handleDisconnect
  | DroneControlPanel.OnTakeoff => takeoff
  | DroneControlPanel.OnLand => land
  | DroneControlPanel.OnMove direction distance => handleMove direction distance
  | DroneControlPanel.OnRotate direction degrees => handleRotate direction degrees
  | DroneControlPanel.OnFlip direction => flip direction
  | DroneControlPanel.OnSpeedChange speed => setSpeed speed
  | DroneControlPanel.OnToggleTracking enabled => toggleTracking enabled
  end.

(** The promises a gesture leaves, each as it settles, and the state after
    them. *)
Fixpoint settle_all (handlers : list (AppM JSValue)) (net : Network) (app : App)
  : list (Completion JSValue) * App :=
  match handlers with
  | [] => ([], app)
  | h :: rest =>
      let (outcome, app') := h net app in
      let (outcomes, app'') := settle_all rest net app' in
      (outcome :: outcomes, app'')
  end.

(** A gesture on the panel as the component renders it. *)
Definition interact (g : DroneControlPanel.Gesture) (net : Network)
  (st : DroneControlPanel.Local) (app : App)
  : DroneControlPanel.Local * list (Completion JSValue) * App :=
  let effect := DroneControlPanel.react (panel_props app) st g in
  let (outcomes, app') :=
    settle_all (DroneControlPanel.called effect) net app in
  (DroneControlPanel.after effect, outcomes, app').

End DroneController.

(* ===================================================================== *)
(** ** What the component puts on display *)
(* ===================================================================== *)

Module Views.

(** The member names read here ([battery], [temperature], [height],
    [speed], [flight_time], [x], [y], [z]) are, like those the hooks read,
    not defined on a built-in prototype, so [get] reads them.  The views
    record the values handed to the page; how the page prints a value is
    not part of them. *)

Definition then_ {A B} (c : Completion A) (k : A -> Completion B) : Completion B :=
  match c with
  | Normal a => k a
  | Throw e => Throw e
  end.

(** [v?.name] *)
Definition optional_get (v : JSValue) (name : string) : Completion JSValue :=
  match v with
  | JUndefined | JNull => Normal JUndefined
  | _ => get v name
  end.

(** [v ?? fallback] *)
Definition nullish (v fallback : JSValue) : JSValue :=
  match v with
  | JUndefined | JNull => fallback
  | _ => v
  end.

(** A destructured parameter [name = fallback]: the default stands in for
    [undefined] only. *)
Definition parameter_default (v fallback : JSValue) : JSValue :=
  match v with
  | JUndefined => fallback
  | _ => v
  end.

(** Whether a value counts as true in a condition. *)
Definition truthy (v : JSValue) : bool :=
  match v with
  | JUndefined | JNull => false
  | JBool b => b
  | JNumber n => negb (is_zero n || is_nan n)
  | JString s => negb (bool_decide (s = ""))
  | JArray _ | JObject _ => true
  end.

(** *** components/StatusBar.tsx *)

Record StatusBarView : Type := mkStatusBarView {
  status_text : string;
  battery_shown : JSValue;         (* followed by "%" *)
  temperature_shown : JSValue      (* followed by "°C" *)
}.

Definition StatusBar (isConnected : bool) (batteryLevel temperature : JSValue)
  : StatusBarView :=
  let batteryLevel := parameter_default batteryLevel (JNumber 0) in
  let temperature := parameter_default temperature (JNumber 0) in
  {| status_text := if isConnected then "Connected" else "Disconnected";
     battery_shown := batteryLevel;
     temperature_shown := temperature |}.

(** *** components/TelemetryPanel.tsx *)

Record TelemetryView : Type := mkTelemetryView {
  height_shown : JSValue;          (* followed by " cm" *)
  speed_x_shown : JSValue;         (* "X: " ... " cm/s" *)
  speed_y_shown : JSValue;
  speed_z_shown : JSValue;
  flight_time_shown : JSValue      (* followed by " seconds" *)
}.

Definition TelemetryPanel (height speed flightTime : JSValue)
  : Completion TelemetryView :=
  then_ (optional_get speed "x") (fun x =>
  then_ (optional_get speed "y") (fun y =>
  then_ (optional_get speed "z") (fun z =>
  Normal {| height_shown := nullish height (JNumber 0);
            speed_x_shown := nullish x (JNumber 0);
            speed_y_shown := nullish y (JNumber 0);
            speed_z_shown := nullish z (JNumber 0);
            flight_time_shown := nullish flightTime (JNumber 0) |}))).

(** The telemetry panel with nothing to show. *)
Definition zeros : TelemetryView :=
  mkTelemetryView (JNumber 0) (JNumber 0) (JNumber 0) (JNumber 0) (JNumber 0).

(** *** components/VideoFeed.tsx *)

(** The [src] of the image: the prefix followed by the frame, or by the
    text of a value that is not a string. *)
Inductive Src : Type :=
| Url (s : string)
| PrefixThenTextOf (v : JSValue).

Inductive VideoFeedView : Type :=
| Image (src : Src)
| NoVideoFeed.                     (* "No video feed available" *)

Definition VideoFeed (videoFrame : JSValue) : VideoFeedView :=
  if truthy videoFrame then
    Image (match videoFrame with
           | JString frame => Url ("data:image/jpeg;base64," +:+ frame)
           | other => PrefixThenTextOf other
           end)
  else NoVideoFeed.

(** *** What [DroneController] returns *)

Record Page : Type := mkPage {
  statusBar : StatusBarView;
  videoFeed : VideoFeedView;
  telemetry : TelemetryView
}.

Definition page (w : UseWebSocket.State) : Completion Page :=
  let droneState := UseWebSocket.droneState w in
  then_ (optional_get droneState "battery") (fun battery =>
  then_ (optional_get droneState "temperature") (fun temperature =>
  then_ (optional_get droneState "height") (fun height =>
  then_ (optional_get droneState "speed") (fun speed =>
  then_ (optional_get droneState "flight_time") (fun flight_time =>
  then_ (TelemetryPanel height speed flight_time) (fun telemetry =>
  Normal {| statusBar := StatusBar (UseWebSocket.isConnected w) battery temperature;
            videoFeed := VideoFeed (UseWebSocket.videoFrame w);
            telemetry := telemetry |})))))).

End Views.

(* ===================================================================== *)
(** ** Properties of the telemetry channel *)
(* ===================================================================== *)

Module Channel.
Import UseWebSocket.

(** *** What a task leaves of the code it runs *)

Section SlotsAfterEffects.
Variable previous : option Handle.
Variable w : State.

Lemma flushEffects_ws : ws (snd (flushEffects previous w)) = ws w.
Proof. unfold flushEffects. case_decide; [done|]. by destruct previous. Qed.

Lemma flushEffects_isConnected :
  isConnected (snd (flushEffects previous w)) = isConnected w.
Proof. unfold flushEffects. case_decide; [done|]. by destruct previous. Qed.

Lemma flushEffects_droneState :
  droneState (snd (flushEffects previous w)) = droneState w.
Proof. unfold flushEffects. case_decide; [done|]. by destruct previous. Qed.

Lemma flushEffects_videoFrame :
  videoFrame (snd (flushEffects previous w)) = videoFrame w.
Proof. unfold flushEffects. case_decide; [done|]. by destruct previous. Qed.

Lemma flushEffects_same_handle :
  ws w = previous -> snd (flushEffects previous w) = w.
Proof. intros Hws. unfold flushEffects. by rewrite decide_True. Qed.

End SlotsAfterEffects.

Lemma task_unchanged code w : snd (code w) = w -> task code w = w.
Proof. intros Hw. unfold task. rewrite Hw. by apply flushEffects_same_handle. Qed.

Lemma task_same_handle code w :
  ws (snd (code w)) = ws w -> task code w = snd (code w).
Proof. intros Hws. unfold task. by apply flushEffects_same_handle. Qed.

(** *** The message handler, case by case *)

Lemma get_field v name : has_members v = true -> get v name = Normal (field v name).
Proof. by destruct v. Qed.

Lemma tagged_has_members tag v : tagged tag v = true -> has_members v = true.
Proof. by destruct v. Qed.

Lemma tagged_has_type_field tag v : tagged tag v = true -> has_type_field v = true.
Proof.
  destruct v as [| | | | |?|props]; try done.
  unfold tagged, has_type_field, field.
  destruct (own_property props "type"); [|done].
  intros _. apply bool_decide_eq_true. by eexists.
Qed.

Lemma tagged_exclusive v :
  tagged "state_update" v = true -> tagged "video_frame" v = false.
Proof.
  unfold tagged. destruct (field v "type") as [| | | |s| |]; try done.
  simpl. rewrite !bool_decide_eq_true. intros ->. by apply bool_decide_eq_false.
Qed.

Lemma onmessage_state d w : snd (onmessage d w) = after_message d w.
Proof.
  destruct d as [|v]; [done|].
  destruct v as [| | | | |?|props]; try done.
  unfold onmessage, after_message, tagged, bind, lift. simpl.
  destruct (strictEquals _ "state_update"); [done|].
  destruct (strictEquals _ "video_frame"); [|done].
  simpl. by destruct (default JUndefined (own_property props "data")).
Qed.

Lemma after_message_ws d w : ws (after_message d w) = ws w.
Proof.
  destruct d as [|v]; [done|]. simpl.
  by repeat (match goal with |- context [if ?b then _ else _] => destruct b end).
Qed.

Lemma step_message h d w w' :
  step (Ev_message h d) w = Some w' -> w' = after_message d w.
Proof.
  simpl. destruct (ready h w) as [[]|]; try done. intros [= <-].
  rewrite task_same_handle; rewrite onmessage_state; [done|].
  apply after_message_ws.
Qed.

(** The snapshot and the frame a single event leaves. *)
Lemma step_droneState ev w w' :
  step ev w = Some w' ->
  droneState w' =
    default (droneState w) ((fun v => field v "data") <$> received "state_update" ev).
Proof.
  destruct ev as [| |h|h d|h]; simpl.
  - intros [= <-]. unfold task. by rewrite flushEffects_droneState.
  - intros [= <-]. unfold task. rewrite flushEffects_droneState.
    unfold disconnect. by destruct (ws w).
  - destruct (ready h w) as [[]|]; try done. intros [= <-].
    unfold task. by rewrite flushEffects_droneState.
  - intros Hstep. apply step_message in Hstep as ->.
    destruct d as [|v]; [done|]. simpl.
    destruct (tagged "state_update" v); [done|]. simpl.
    by repeat (match goal with |- context [if ?b then _ else _] => destruct b end).
  - destruct (ready h w) as [[]|]; try done; intros [= <-];
      unfold task; by rewrite flushEffects_droneState.
Qed.

Lemma step_videoFrame ev w w' :
  step ev w = Some w' ->
  videoFrame w' =
    default (videoFrame w)
            ((fun v => field (field v "data") "frame") <$> framed ev).
Proof.
  destruct ev as [| |h|h d|h]; simpl.
  - intros [= <-]. unfold task. by rewrite flushEffects_videoFrame.
  - intros [= <-]. unfold task. rewrite flushEffects_videoFrame.
    unfold disconnect. by destruct (ws w).
  - destruct (ready h w) as [[]|]; try done. intros [= <-].
    unfold task. by rewrite flushEffects_videoFrame.
  - intros Hstep. apply step_message in Hstep as ->.
    destruct d as [|v]; [done|]. unfold framed. simpl.
    destruct (tagged "state_update" v) eqn:Hsu.
    + by rewrite (tagged_exclusive v Hsu).
    + destruct (tagged "video_frame" v); [|done].
      by destruct (has_members (field v "data")).
  - destruct (ready h w) as [[]|]; try done; intros [= <-];
      unfold task; by rewrite flushEffects_videoFrame.
Qed.

(** *** Slots that follow the latest of a kind of event *)

Section LatestWins.
Context {A : Type}.
Variable slot : State -> A.
Variable written : Event -> option A.
Hypothesis slot_step : forall ev w w',
  step ev w = Some w' -> slot w' = default (slot w) (written ev).

Lemma default_last_cons (d x : A) l : default d (last (x :: l)) = default x (last l).
Proof. rewrite last_cons. by destruct (last l). Qed.

Lemma slot_run trace : forall w w',
  run trace w = Some w' -> slot w' = default (slot w) (last (omap written trace)).
Proof.
  induction trace as [|ev rest IH]; intros w w'; simpl.
  - by intros [= <-].
  - destruct (step ev w) as [w1|] eqn:Hstep; [|done].
    intros Hrun. rewrite (IH _ _ Hrun), (slot_step _ _ _ Hstep).
    destruct (written ev) as [x|]; [|done].
    by rewrite default_last_cons.
Qed.

End LatestWins.

Lemma omap_fmap_option {A B} (f : A -> B) (g : Event -> option A)
    (trace : list Event) :
  omap (fun ev => f <$> g ev) trace = f <$> omap g trace.
Proof.
  induction trace as [|ev rest IH]; [done|].
  change (omap (fun ev => f <$> g ev) (ev :: rest))
    with (match f <$> g ev with
          | Some y => y :: omap (fun ev => f <$> g ev) rest
          | None => omap (fun ev => f <$> g ev) rest
          end).
  change (omap g (ev :: rest))
    with (match g ev with
          | Some y => y :: omap g rest
          | None => omap g rest
          end).
  rewrite IH. by destruct (g ev).
Qed.

Lemma droneState_run trace w w' :
  run trace w = Some w' ->
  droneState w' = default (droneState w) (last (state_updates trace)).
Proof.
  intros Hrun. unfold state_updates. rewrite <- omap_fmap_option.
  by apply (slot_run droneState _ step_droneState).
Qed.

Lemma videoFrame_run trace w w' :
  run trace w = Some w' ->
  videoFrame w' = default (videoFrame w) (last (stored_frames trace)).
Proof.
  intros Hrun. unfold stored_frames. rewrite <- omap_fmap_option.
  by apply (slot_run videoFrame _ step_videoFrame).
Qed.

(** *** The snapshot slot *)

(** C1. After any sequence of events delivered to a freshly mounted hook,
    the snapshot [droneState] is the [data] payload of the last
    [state_update] message received, whole and unmerged, and [null] when
    none was received. *)
Theorem snapshot_is_latest_state_update trace w :
  run trace initial = Some w ->
  droneState w = default JNull (last (state_updates trace)).
Proof. apply droneState_run. Qed.

Lemma snapshot_is_latest_state_update_witness :
  let trace :=
    [Call_connect; Ev_open 0;
     Ev_message 0 (state_update (JObject [("battery", JNumber 80);
                                          ("height", JNumber 120)]));
     Ev_message 0 (video_frame (JString "AAAA"));
     Ev_message 0 Unparsable;
     Ev_message 0 (state_update (battery 79))] in
  exists w, run trace initial = Some w /\ droneState w = battery 79.
Proof.
  intros trace. eexists. split; [reflexivity|].
  match goal with
  | |- droneState ?w = _ =>
      exact (snapshot_is_latest_state_update trace w eq_refl)
  end.
Defined.

(** *** The frame slot *)

(** C2, as stated, fails: a [video_frame] message without [data] makes the
    handler throw before it writes, and the frame of the message before it
    stays on display. *)
Lemma earlier_frame_survives_message_without_data :
  ~ (forall trace w,
       run trace initial = Some w ->
       videoFrame w = default JNull (last (video_frames trace))).
Proof.
  intros Hclaim.
  specialize (Hclaim
    [Call_connect; Ev_open 0;
     Ev_message 0 (video_frame (JString "AAAA"));
     Ev_message 0 (TextOf (JObject [("type", JString "video_frame")]))]
    _ eq_refl).
  discriminate Hclaim.
Qed.

(** C2, amended. After any sequence of events delivered to a freshly
    mounted hook, [videoFrame] is the [data.frame] field of the last
    [video_frame] message received whose [data] is neither missing nor
    [null], and [null] when there was none: one slot, no queue. *)
Theorem frame_is_latest_stored_frame trace w :
  run trace initial = Some w ->
  videoFrame w = default JNull (last (stored_frames trace)).
Proof. apply videoFrame_run. Qed.

Lemma frame_is_latest_stored_frame_witness :
  let trace :=
    [Call_connect; Ev_open 0;
     Ev_message 0 (video_frame (JString "AAAA"));
     Ev_message 0 (state_update (battery 80));
     Ev_message 0 (video_frame (JString "BBBB"));
     Ev_message 0 (TextOf (JObject [("type", JString "video_frame")]))] in
  exists w, run trace initial = Some w /\ videoFrame w = JString "BBBB".
Proof.
  intros trace. eexists. split; [reflexivity|].
  match goal with
  | |- videoFrame ?w = _ =>
      exact (frame_is_latest_stored_frame trace w eq_refl)
  end.
Defined.

(** *** Messages that write nothing *)

(** C3. A message that is valid JSON and carries neither of the two tags
    leaves the state as it was, snapshot and frame included, and the
    handler ends normally on it (for the one JSON value without members,
    [null], see C4). *)
Theorem unrecognized_tag_is_ignored v w :
  tagged "state_update" v = false ->
  tagged "video_frame" v = false ->
  snd (onmessage (TextOf v) w) = w
  /\ (has_members v = true -> onmessage (TextOf v) w = (Normal tt, w))
  /\ (forall h w', step (Ev_message h (TextOf v)) w = Some w' ->
                   w' = w
                   /\ droneState w' = droneState w
                   /\ videoFrame w' = videoFrame w).
Proof.
  intros Hsu Hvf.
  assert (after_message (TextOf v) w = w) as Hafter.
  { simpl. by rewrite Hsu, Hvf. }
  split; [by rewrite onmessage_state|]. split.
  - intros Hmembers. unfold onmessage, bind, lift. simpl.
    rewrite (get_field v "type" Hmembers).
    unfold tagged in Hsu, Hvf. by rewrite Hsu, Hvf.
  - intros h w' Hstep. apply step_message in Hstep. by rewrite Hstep, Hafter.
Qed.

Lemma unrecognized_tag_is_ignored_witness :
  let v := JObject [("type", JString "heartbeat"); ("data", battery 5)] in
  onmessage (TextOf v) streaming = (Normal tt, streaming)
  /\ step (Ev_message 0 (TextOf v)) streaming = Some streaming.
Proof.
  intros v.
  destruct (unrecognized_tag_is_ignored v streaming eq_refl eq_refl)
    as (_ & Hnormal & _).
  split; [exact (Hnormal eq_refl) | reflexivity].
Defined.

(** C4, as stated, fails: the handler has no [try]; on text that is not
    JSON the [SyntaxError] of [JSON.parse] leaves the handler and reaches
    whoever called it. *)
Lemma handler_lets_parse_failure_escape :
  ~ (forall d w,
       malformed d ->
       snd (onmessage d w) = w /\ is_normal (fst (onmessage d w)) = true).
Proof.
  intros Hclaim. destruct (Hclaim Unparsable initial I) as [_ Hnormal].
  discriminate Hnormal.
Qed.

(** C4, amended. A malformed message (text that is not JSON, or JSON
    without a [type] field) writes no slot: the snapshot, the frame, the
    connection state and the handle are as before, nothing changes for a
    reader of the hook, and the channel goes on with the messages that
    follow.  The handler does not catch the failure: text that is not
    JSON ends it with the [SyntaxError], JSON [null] with a [TypeError],
    and the event loop reports either; any other value without a [type]
    field is ignored without an exception. *)
Theorem malformed_message_leaves_state d w :
  malformed d ->
  snd (onmessage d w) = w
  /\ fst (onmessage d w) =
       match d with
       | Unparsable => Throw SyntaxError
       | TextOf v => if has_members v then Normal tt else Throw TypeError
       end
  /\ (forall h w', step (Ev_message h d) w = Some w' ->
                   w' = w /\ published w' = published w)
  /\ (forall h rest, ready h w = Some OPEN ->
                     run (Ev_message h d :: rest) w = run rest w).
Proof.
  intros Hbad.
  assert (after_message d w = w) as Hafter.
  { destruct d as [|v]; [done|]. simpl in *.
    destruct (tagged "state_update" v) eqn:Hsu.
    { apply tagged_has_type_field in Hsu. congruence. }
    destruct (tagged "video_frame" v) eqn:Hvf; [|done].
    apply tagged_has_type_field in Hvf. congruence. }
  assert (task (onmessage d) w = w) as Htask.
  { apply task_unchanged. by rewrite onmessage_state. }
  split; [by rewrite onmessage_state|]. split; [|split].
  - destruct d as [|v]; [done|]. simpl in Hbad.
    destruct (has_members v) eqn:Hmembers; [|by destruct v].
    assert (tagged "state_update" v = false) as Hsu.
    { destruct (tagged "state_update" v) eqn:Hsu; [|done].
      apply tagged_has_type_field in Hsu. congruence. }
    assert (tagged "video_frame" v = false) as Hvf.
    { destruct (tagged "video_frame" v) eqn:Hvf; [|done].
      apply tagged_has_type_field in Hvf. congruence. }
    unfold onmessage, bind, lift. simpl.
    rewrite (get_field v "type" Hmembers).
    unfold tagged in Hsu, Hvf. by rewrite Hsu, Hvf.
  - intros h w' Hstep. apply step_message in Hstep. by rewrite Hstep, Hafter.
  - intros h rest Hopen. simpl. by rewrite Hopen, Htask.
Qed.

Lemma malformed_message_leaves_state_witness :
  step (Ev_message 0 Unparsable) streaming = Some streaming
  /\ onmessage Unparsable streaming = (Throw SyntaxError, streaming)
  /\ run [Ev_message 0 (TextOf (JObject [("data", battery 5)]));
          Ev_message 0 (state_update (battery 79))] streaming
     = run [Ev_message 0 (state_update (battery 79))] streaming.
Proof.
  destruct (malformed_message_leaves_state Unparsable streaming I)
    as (Hstate & Hthrown & _ & Hgo).
  split; [exact (Hgo 0 [] eq_refl)|]. split.
  - destruct (onmessage Unparsable streaming). simpl in *. congruence.
  - destruct (malformed_message_leaves_state
                (TextOf (JObject [("data", battery 5)])) streaming eq_refl)
      as (_ & _ & _ & Hgo').
    exact (Hgo' 0 _ eq_refl).
Defined.

(** C10. The two tags write disjoint slots: a [state_update] message
    leaves the frame and the connection state as they were, a
    [video_frame] message leaves the snapshot and the connection state as
    they were. *)
Theorem tags_write_disjoint_slots h v w w' :
  step (Ev_message h (TextOf v)) w = Some w' ->
  (tagged "state_update" v = true ->
     videoFrame w' = videoFrame w /\ isConnected w' = isConnected w)
  /\ (tagged "video_frame" v = true ->
     droneState w' = droneState w /\ isConnected w' = isConnected w).
Proof.
  intros Hstep. apply step_message in Hstep as ->. simpl. split.
  - by intros ->.
  - intros Hvf. destruct (tagged "state_update" v) eqn:Hsu.
    { apply tagged_exclusive in Hsu. congruence. }
    rewrite Hvf. by destruct (has_members (field v "data")).
Qed.

Lemma tags_write_disjoint_slots_witness :
  (forall w', step (Ev_message 0 (state_update (battery 79))) streaming = Some w' ->
              videoFrame w' = JString "AAAA" /\ isConnected w' = true)
  /\ (forall w',
        step (Ev_message 0 (video_frame (JString "BBBB"))) streaming = Some w' ->
        droneState w' = battery 80 /\ isConnected w' = true).
Proof.
  split; intros w' Hstep.
  - exact (proj1 (tags_write_disjoint_slots _ _ _ _ Hstep) eq_refl).
  - exact (proj2 (tags_write_disjoint_slots _ _ _ _ Hstep) eq_refl).
Defined.

(** *** The connection state *)

Lemma step_isConnected ev w w' :
  step ev w = Some w' ->
  isConnected w' = default (isConnected w) (connection_event ev).
Proof.
  destruct ev as [| |h|h d|h]; simpl.
  - intros [= <-]. unfold task. by rewrite flushEffects_isConnected.
  - intros [= <-]. unfold task. rewrite flushEffects_isConnected.
    unfold disconnect. by destruct (ws w).
  - destruct (ready h w) as [[]|]; try done. intros [= <-].
    unfold task. by rewrite flushEffects_isConnected.
  - intros Hstep. apply step_message in Hstep as ->.
    destruct d as [|v]; [done|]. simpl.
    by repeat (match goal with |- context [if ?b then _ else _] => destruct b end).
  - destruct (ready h w) as [[]|]; try done; intros [= <-];
      unfold task; by rewrite flushEffects_isConnected.
Qed.

(** C8. The connection state has two values and follows the socket events
    alone: an open event sets it, a close event clears it, and a call of
    [connect] or [disconnect] or an inbound message leaves it as it was; so
    after any run it is what the last open or close event made it, and
    [false] before the first. *)
Theorem connection_state_follows_socket_events trace w ev w' :
  run trace initial = Some w ->
  step ev w = Some w' ->
  match ev with
  | Ev_open _ => isConnected w' = true
  | Ev_close _ => isConnected w' = false
  | Call_connect | Call_disconnect | Ev_message _ _ =>
      isConnected w' = isConnected w
  end
  /\ isConnected w = default false (last (omap connection_event trace)).
Proof.
  intros Hrun Hstep. split.
  - rewrite (step_isConnected _ _ _ Hstep). by destruct ev.
  - by apply (slot_run isConnected _ step_isConnected _ initial).
Qed.

Lemma connection_state_follows_socket_events_witness :
  let trace := [Call_connect; Ev_open 0; Ev_message 0 Unparsable] in
  exists w w',
    run trace initial = Some w
    /\ step Call_disconnect w = Some w'
    /\ isConnected w' = isConnected w
    /\ isConnected w = true.
Proof.
  intros trace. do 2 eexists. split; [reflexivity|]. split; [reflexivity|].
  match goal with
  | |- isConnected ?w' = isConnected ?w /\ _ =>
      exact (connection_state_follows_socket_events
               trace w Call_disconnect w' eq_refl eq_refl)
  end.
Defined.

(** *** Closing *)

Lemma closing_not_live s : live (closing s) = false.
Proof. destruct s as [u []]; reflexivity. Qed.

Lemma closing_idemp s : closing (closing s) = closing s.
Proof. destruct s as [u []]; reflexivity. Qed.

Lemma task_disconnect_owned w h :
  ws w = Some h ->
  task disconnect w =
    mkState None (isConnected w) (droneState w) (videoFrame w)
            (alter closing h (alter closing h (sockets w)))
            (closeCalls w ++ [h; h]).
Proof.
  intros Hws. unfold task, disconnect, flushEffects. rewrite Hws. simpl.
  by rewrite <- app_assoc.
Qed.

(** C9. [disconnect] closes the owned socket and clears the handle when
    there is one: [close()] is called on it (by [disconnect], and again by
    the clean-up effect that the change of handle triggers), it is no
    longer connecting or open, and no other socket and no published slot
    changes.  With no handle, [disconnect] changes nothing and calls no
    [close()]. *)
Theorem disconnect_closes_owned_socket w w' :
  step Call_disconnect w = Some w' ->
  match ws w with
  | Some h =>
      ws w' = None
      /\ closeCalls w' = closeCalls w ++ [h; h]
      /\ (forall s, sockets w' !! h = Some s -> live s = false)
      /\ (forall k, k <> h -> sockets w' !! k = sockets w !! k)
      /\ published w' = published w
  | None => w' = w
  end.
Proof.
  simpl. intros [= <-]. destruct (ws w) as [h|] eqn:Hws.
  - rewrite (task_disconnect_owned w h Hws). simpl. repeat split.
    + intros s. rewrite !list_lookup_alter_eq.
      destruct (sockets w !! h) as [s0|]; simpl; [|done]. intros [= <-].
      by rewrite closing_idemp, closing_not_live.
    + intros k Hk. by rewrite !list_lookup_alter_ne.
  - apply task_unchanged. unfold disconnect. by rewrite Hws.
Qed.

Lemma disconnect_closes_owned_socket_witness :
  let w := streaming in
  exists w',
    step Call_disconnect w = Some w'
    /\ ws w' = None
    /\ closeCalls w' = [0; 0]
    /\ sockets w' = [mkWebSocket "ws://localhost:8000/ws" CLOSING]
    /\ step Call_disconnect w' = Some w'.
Proof.
  intros w. eexists. split; [reflexivity|].
  match goal with
  | |- ws ?w' = None /\ _ =>
      destruct (disconnect_closes_owned_socket w w' eq_refl)
        as (Hws & Hcalls & _)
  end.
  split; [exact Hws|]. split; [exact Hcalls|]. split; reflexivity.
Defined.

(** *** One connection at a time *)

Lemma after_message_sockets d w : sockets (after_message d w) = sockets w.
Proof.
  destruct d as [|v]; [done|]. simpl.
  by repeat (match goal with |- context [if ?b then _ else _] => destruct b end).
Qed.

Lemma task_connect w :
  (forall h, ws w = Some h -> h < length (sockets w)) ->
  task connect w =
    mkState (Some (length (sockets w)))
            (isConnected w) (droneState w) (videoFrame w)
            (match ws w with
             | Some h => alter closing h (sockets w ++ [socket_new])
             | None => sockets w ++ [socket_new]
             end)
            (match ws w with
             | Some h => closeCalls w ++ [h]
             | None => closeCalls w
             end).
Proof.
  intros Hbound. unfold task, connect, bind, flushEffects. simpl.
  case_decide as Hsame.
  - symmetry in Hsame. apply Hbound in Hsame. lia.
  - by destruct (ws w).
Qed.

Lemma task_onopen h w :
  task onopen (set_ready h OPEN w) =
    mkState (ws w) true (droneState w) (videoFrame w)
            (alter (fun s => mkWebSocket (url s) OPEN) h (sockets w))
            (closeCalls w).
Proof. by rewrite task_same_handle. Qed.

Lemma task_onclose h w :
  task onclose (set_ready h CLOSED w) =
    mkState (ws w) false (droneState w) (videoFrame w)
            (alter (fun s => mkWebSocket (url s) CLOSED) h (sockets w))
            (closeCalls w).
Proof. by rewrite task_same_handle. Qed.

Lemma ready_live h w r :
  ready h w = Some r -> r = CONNECTING \/ r = OPEN ->
  exists s, sockets w !! h = Some s /\ live s = true.
Proof.
  unfold ready, live. destruct (sockets w !! h) as [s|]; [|done].
  simpl. intros [= <-] Hr. exists s. split; [done|]. by destruct Hr as [-> | ->].
Qed.

Lemma single_connection_initial : single_connection initial.
Proof. split; [done|]. intros k s. simpl. by rewrite lookup_nil. Qed.

Lemma single_connection_step ev w w' :
  single_connection w -> step ev w = Some w' -> single_connection w'.
Proof.
  intros [Hbound Hlive]. destruct ev as [| |h|h d|h]; simpl.
  - intros [= <-]. rewrite (task_connect w Hbound). split; simpl.
    + intros h [= <-]. destruct (ws w); rewrite ?length_alter, length_app; simpl; lia.
    + intros k s Hk Hs. f_equal.
      assert (forall s', (sockets w ++ [socket_new]) !! k = Some s' ->
                         k <> length (sockets w) ->
                         sockets w !! k = Some s') as Hold.
      { intros s' Hk' Hne.
        by apply lookup_snoc_Some in Hk' as [[_ Hk'] | [-> _]]. }
      destruct (decide (k = length (sockets w))) as [|Hne]; [done|]. exfalso.
      destruct (ws w) as [p|] eqn:Hp.
      * destruct (decide (p = k)) as [->|Hpk].
        -- revert Hk. rewrite list_lookup_alter_eq.
           destruct (_ !! k) as [s0|]; simpl; [|done].
           intros [= <-]. by rewrite closing_not_live in Hs.
        -- rewrite list_lookup_alter_ne in Hk by done.
           pose proof (Hlive _ _ (Hold _ Hk Hne) Hs). congruence.
      * pose proof (Hlive _ _ (Hold _ Hk Hne) Hs). congruence.
  - intros [= <-]. destruct (ws w) as [h|] eqn:Hws.
    + rewrite (task_disconnect_owned w h Hws). split; simpl; [done|].
      intros k s Hk Hs. exfalso. destruct (decide (h = k)) as [->|Hne].
      * revert Hk. rewrite !list_lookup_alter_eq.
        destruct (sockets w !! k) as [s0|]; simpl; [|done].
        intros [= <-]. by rewrite closing_idemp, closing_not_live in Hs.
      * rewrite !list_lookup_alter_ne in Hk by done.
        pose proof (Hlive _ _ Hk Hs). congruence.
    + rewrite task_unchanged; [|unfold disconnect; by rewrite Hws].
      split; rewrite Hws; auto.
  - destruct (ready h w) as [[]|] eqn:Hready; try done. intros [= <-].
    rewrite task_onopen. split; simpl.
    + intros h' Hh'. rewrite length_alter. auto.
    + intros k s Hk Hs. destruct (decide (h = k)) as [->|Hne].
      * destruct (ready_live _ _ _ Hready) as (s0 & Hs0 & Hlive0); eauto.
      * rewrite list_lookup_alter_ne in Hk by done. eauto.
  - intros Hstep. apply step_message in Hstep as ->.
    split; rewrite after_message_ws, after_message_sockets; auto.
  - assert (forall w0, w0 = task onclose (set_ready h CLOSED w) ->
                       single_connection w0) as Hclosed.
    { intros w0 ->. rewrite task_onclose. split; simpl.
      - intros h' Hh'. rewrite length_alter. auto.
      - intros k s Hk Hs. destruct (decide (h = k)) as [->|Hne].
        + exfalso. revert Hk. rewrite list_lookup_alter_eq.
          destruct (sockets w !! k) as [s0|]; simpl; [|done].
          intros [= <-]. done.
        + rewrite list_lookup_alter_ne in Hk by done. eauto. }
    destruct (ready h w) as [[]|]; try done; intros [= <-]; by apply Hclosed.
Qed.







End Channel.

(* ===================================================================== *)
(** ** Properties of the command dispatcher *)
(* ===================================================================== *)

Module Dispatcher.
Import UseDroneCommands.

Lemma ok_status r : ok r = true <-> (200 <= status r <= 299)%Z.
Proof. unfold ok. apply bool_decide_eq_true. Qed.

Lemma not_ok_status r : ok r = false <-> ~ (200 <= status r <= 299)%Z.
Proof. unfold ok. apply bool_decide_eq_false. Qed.

(** What [fetchWithBody] does, by what comes back. *)
Lemma fetchWithBody_outcome endpoint body net log :
  let request := {| req_url := API_BASE +:+ endpoint;
                    method := "POST";
                    headers := [("Content-Type", "application/json")];
                    body := JSON_stringify body |} in
  fetchWithBody endpoint body net log =
    (match net (log ++ [request]) with
     | None => Throw TypeError
     | Some r => if ok r then json r else Throw (Error "Command failed")
     end,
     log ++ [request]).
Proof.
  intros request. unfold fetchWithBody, await, fetch, settle. fold request.
  destruct (net (log ++ [request])) as [r|]; [|done]. by destruct (ok r).
Qed.

Lemma dispatch_fetchWithBody c :
  dispatch c = fetchWithBody (endpoint c) (parameters c).
Proof. by destruct c. Qed.

Lemma dispatch_outcome c net log :
  dispatch c net log =
    (match net (log ++ [post c]) with
     | None => Throw TypeError
     | Some r => if ok r then json r else Throw (Error "Command failed")
     end,
     log ++ [post c]).
Proof. rewrite dispatch_fetchWithBody. apply fetchWithBody_outcome. Qed.

(** C5, as stated, fails: a response with a 2xx status whose body is not
    JSON (a 204 has no body at all) makes [response.json()] reject, so the
    operation does not resolve although the status is successful. *)
Lemma successful_status_without_JSON_body_rejects :
  ~ (forall c net log r,
       net (log ++ [post c]) = Some r ->
       (is_normal (fst (dispatch c net log)) = true
          <-> (200 <= status r <= 299)%Z)
       /\ (fst (dispatch c net log) = Throw (Error "Command failed")
          <-> ~ (200 <= status r <= 299)%Z)).
Proof.
  intros Hclaim.
  destruct (Hclaim Takeoff (fun _ => Some (mkResponse 204 None)) []
                   (mkResponse 204 None) eq_refl) as [Hresolves _].
  simpl in Hresolves. assert (false = true) as Habsurd; [|done].
  apply Hresolves. lia.
Qed.

(** C5, amended. Every operation of the dispatcher issues one POST request
    to its endpoint, with its parameters as the JSON body, and no other.
    When a response arrives, the operation fails with the one error
    [Error('Command failed')], which carries no code, exactly when the
    status is not 2xx, and resolves with a value exactly when the status is
    2xx and the body parses to that value; a 2xx response whose body is not
    JSON rejects with the parser's [SyntaxError].  When no response
    arrives, the operation rejects with [fetch]'s [TypeError]. *)
Theorem dispatch_one_request_uniform_failure c net log :
  snd (dispatch c net log) = log ++ [post c]
  /\ match net (log ++ [post c]) with
     | Some r =>
         (fst (dispatch c net log) = Throw (Error "Command failed")
            <-> ~ (200 <= status r <= 299)%Z)
         /\ (forall v, fst (dispatch c net log) = Normal v
                       <-> (200 <= status r <= 299)%Z /\ parsed_body r = Some v)
         /\ ((200 <= status r <= 299)%Z -> parsed_body r = None ->
             fst (dispatch c net log) = Throw SyntaxError)
     | None => fst (dispatch c net log) = Throw TypeError
     end.
Proof.
  rewrite dispatch_outcome. simpl. split; [done|].
  destruct (net (log ++ [post c])) as [r|]; [|done].
  destruct (ok r) eqn:Hok.
  - apply ok_status in Hok. unfold json.
    destruct (parsed_body r) as [v0|]; split_and!.
    + split; [discriminate | intros Hbad; contradiction].
    + intros v. split; [by intros [= ->] | by intros [_ [= ->]]].
    + discriminate.
    + split; [discriminate | intros Hbad; contradiction].
    + intros v. split; [discriminate | by intros [_ [=]]].
    + done.
  - apply not_ok_status in Hok. split_and!.
    + done.
    + intros v. split; [discriminate | intros [Hgood _]; contradiction].
    + intros Hgood. contradiction.
Qed.

Lemma dispatch_one_request_uniform_failure_witness :
  let request :=
    {| req_url := "http://localhost:8000/speed";
       method := "POST";
       headers := [("Content-Type", "application/json")];
       body := JSON_stringify (JObject [("speed", JNumber 75)]) |} in
  setSpeed 75 (fun _ => Some (mkResponse 200 None)) []
  = (Throw SyntaxError, [request])
  /\ setSpeed 75 (fun _ => Some (mkResponse 404 (Some JNull))) []
     = (Throw (Error "Command failed"), [request])
  /\ setSpeed 75 (fun _ => Some (mkResponse 200 (Some (JBool true)))) []
     = (Normal (JBool true), [request]).
Proof.
  intros request.
  assert (forall net outcome,
            snd (dispatch (SetSpeed 75) net []) = [request] ->
            fst (dispatch (SetSpeed 75) net []) = outcome ->
            setSpeed 75 net [] = (outcome, [request])) as Hpair.
  { intros net outcome. simpl. destruct (setSpeed 75 net []). simpl. congruence. }
  split_and!; apply Hpair.
  - exact (proj1 (dispatch_one_request_uniform_failure (SetSpeed 75) _ [])).
  - destruct (dispatch_one_request_uniform_failure
                (SetSpeed 75) (fun _ => Some (mkResponse 200 None)) [])
      as (_ & _ & _ & Hsyntax).
    apply Hsyntax; [simpl; lia | reflexivity].
  - exact (proj1 (dispatch_one_request_uniform_failure (SetSpeed 75) _ [])).
  - destruct (dispatch_one_request_uniform_failure
                (SetSpeed 75) (fun _ => Some (mkResponse 404 (Some JNull))) [])
      as (_ & Hfailed & _).
    apply Hfailed. simpl. lia.
  - exact (proj1 (dispatch_one_request_uniform_failure (SetSpeed 75) _ [])).
  - destruct (dispatch_one_request_uniform_failure
                (SetSpeed 75)
                (fun _ => Some (mkResponse 200 (Some (JBool true)))) [])
      as (_ & _ & Hresolved & _).
    apply Hresolved. split; [simpl; lia | reflexivity].
Defined.

(** C6. [move(direction, distance)] issues one POST request to [/move]
    with the body [{direction, distance}], whatever the backend answers;
    on a status that is not 2xx it fails with [Error('Command failed')]
    and issues no second request.  So does [move("forward", 30)], also
    when called through the hook. *)
Theorem move_issues_one_post direction distance net log :
  let request :=
    {| req_url := "http://localhost:8000/move";
       method := "POST";
       headers := [("Content-Type", "application/json")];
       body := JSON_stringify (JObject [("direction", JString direction);
                                        ("distance", JNumber distance)]) |} in
  snd (move direction distance net log) = log ++ [request]
  /\ (forall r, net (log ++ [request]) = Some r ->
                ~ (200 <= status r <= 299)%Z ->
                move direction distance net log
                = (Throw (Error "Command failed"), log ++ [request]))
  /\ snd (move "forward" 30 net []) =
       [ {| req_url := "http://localhost:8000/move";
            method := "POST";
            headers := [("Content-Type", "application/json")];
            body := JSON_stringify (JObject [("direction", JString "forward");
                                             ("distance", JNumber 30)]) |} ]
  /\ useDroneCommands_move (mkMoveVariables direction distance) net log
     = move direction distance net log.
Proof.
  intros request. unfold useDroneCommands_move, mutateAsync, move.
  rewrite !fetchWithBody_outcome.
  split; [done|]. split; [|done].
  intros r Hr Hstatus. apply not_ok_status in Hstatus.
  change (API_BASE +:+ "/move") with "http://localhost:8000/move".
  fold request. by rewrite Hr, Hstatus.
Qed.

Lemma move_issues_one_post_witness :
  let net : Network := fun _ => Some (mkResponse 500 None) in
  let request :=
    {| req_url := "http://localhost:8000/move";
       method := "POST";
       headers := [("Content-Type", "application/json")];
       body := JSON_stringify (JObject [("direction", JString "forward");
                                        ("distance", JNumber 30)]) |} in
  move "forward" 30 net [] = (Throw (Error "Command failed"), [request]).
Proof.
  intros net request.
  destruct (move_issues_one_post "forward" 30 net []) as (_ & Hrejected & _).
  apply (Hrejected (mkResponse 500 None) eq_refl). simpl. lia.
Defined.

End Dispatcher.

(* ===================================================================== *)
(** ** The life cycle of the channel's sockets *)
(* ===================================================================== *)

Module Lifecycle.
Import UseWebSocket.

Lemma step_length_sockets ev w w' :
  single_connection w -> step ev w = Some w' ->
  length (sockets w') =
    length (sockets w) + (if is_connect_call ev then 1 else 0).
Proof.
  intros [Hbound _]. destruct ev as [| |h|h d|h]; simpl.
  - intros [= <-]. rewrite (Channel.task_connect w Hbound). simpl.
    destruct (ws w); rewrite ?length_alter, length_app; simpl; lia.
  - intros [= <-]. destruct (ws w) as [h|] eqn:Hws.
    + rewrite (Channel.task_disconnect_owned w h Hws). simpl.
      rewrite !length_alter. lia.
    + rewrite Channel.task_unchanged; [lia|]. unfold disconnect. by rewrite Hws.
  - destruct (ready h w) as [[]|]; try done. intros [= <-].
    rewrite Channel.task_onopen. simpl. rewrite length_alter. lia.
  - intros Hstep. apply Channel.step_message in Hstep as ->.
    rewrite Channel.after_message_sockets. lia.
  - destruct (ready h w) as [[]|]; try done; intros [= <-];
      rewrite Channel.task_onclose; simpl; rewrite length_alter; lia.
Qed.

Lemma step_ws_socket_event ev w w' :
  step ev w = Some w' -> is_call ev = false -> ws w' = ws w.
Proof.
  destruct ev as [| |h|h d|h]; simpl; try done.
  - destruct (ready h w) as [[]|]; try done. intros [= <-] _.
    by rewrite Channel.task_onopen.
  - intros Hstep _. apply Channel.step_message in Hstep as ->.
    apply Channel.after_message_ws.
  - destruct (ready h w) as [[]|]; try done; intros [= <-] _;
      by rewrite Channel.task_onclose.
Qed.












(** X4. Nothing but a message writes the snapshot or the frame: a run
    without inbound messages (connecting, opening, closing, disconnecting,
    connecting again) leaves both as they were, so the last telemetry and
    the last frame stay on display across a reconnect. *)
Theorem lifecycle_keeps_snapshot_and_frame trace w w' :
  run trace w = Some w' ->
  Forall (fun ev => is_message ev = false) trace ->
  droneState w' = droneState w /\ videoFrame w' = videoFrame w.
Proof.
  intros Hrun Hquiet.
  rewrite (Channel.droneState_run _ _ _ Hrun), (Channel.videoFrame_run _ _ _ Hrun).
  assert (omap (received "state_update") trace = []
          /\ omap framed trace = []) as [Hsu Hvf].
  { clear Hrun. induction Hquiet as [|ev rest Hev _ [IH1 IH2]]; [done|].
    destruct ev; try done; by split. }
  unfold state_updates, stored_frames. by rewrite Hsu, Hvf.
Qed.

Lemma lifecycle_keeps_snapshot_and_frame_witness :
  let trace := [Call_disconnect; Ev_close 0; Call_connect; Ev_open 1] in
  exists w',
    run trace streaming = Some w'
    /\ ws w' = Some 1 /\ isConnected w' = true
    /\ droneState w' = battery 80 /\ videoFrame w' = JString "AAAA".
Proof.
  intros trace. eexists. split; [reflexivity|].
  split; [reflexivity|]. split; [reflexivity|].
  match goal with
  | |- droneState ?w' = _ /\ _ =>
      apply (lifecycle_keeps_snapshot_and_frame trace streaming w' eq_refl)
  end.
  repeat constructor.
Defined.

(** X5. The hook opens a socket only when [connect] is called: after any
    run the number of sockets created is the number of [connect] calls in
    it (a close event brings no reconnection), and the handle the hook
    holds is changed by calls of [connect] and [disconnect] alone, not by
    what the sockets deliver. *)
Theorem sockets_come_from_connect_calls trace w :
  run trace initial = Some w ->
  length (sockets w) = length (filter (fun ev => is_connect_call ev = true) trace)
  /\ (forall ev w', step ev w = Some w' -> is_call ev = false -> ws w' = ws w).
Proof.
  intros Hrun. split; [|intros ev w'; apply step_ws_socket_event].
  assert (forall w0 w1, single_connection w0 -> run trace w0 = Some w1 ->
            length (sockets w1) =
              length (sockets w0)
              + length (filter (fun ev => is_connect_call ev = true) trace))
    as Hcount.
  { clear. induction trace as [|ev rest IH]; intros w0 w1 Hw0; simpl.
    - intros [= <-]. lia.
    - destruct (step ev w0) as [w'|] eqn:Hstep; [|done]. intros Hrest.
      rewrite (IH w' w1 (Channel.single_connection_step _ _ _ Hw0 Hstep) Hrest),
        (step_length_sockets _ _ _ Hw0 Hstep).
      rewrite filter_cons. destruct (is_connect_call ev) eqn:Hconn.
      + rewrite decide_True by done. simpl. lia.
      + rewrite decide_False by done. lia. }
  rewrite (Hcount initial w Channel.single_connection_initial Hrun). done.
Qed.

Lemma sockets_come_from_connect_calls_witness :
  let trace := [Call_connect; Ev_open 0; Ev_close 0; Call_disconnect;
                Call_connect; Ev_open 1; Ev_message 1 Unparsable] in
  exists w, run trace initial = Some w /\ length (sockets w) = 2.
Proof.
  intros trace. eexists. split; [reflexivity|].
  match goal with
  | |- length (sockets ?w) = _ =>
      exact (proj1 (sockets_come_from_connect_calls trace w eq_refl))
  end.
Defined.

(** X6. A [state_update] message and a [video_frame] message commute:
    delivered in either order, on the same or on different sockets, they
    leave the same state. *)
Theorem messages_with_different_tags_commute h1 v1 h2 v2 w :
  tagged "state_update" v1 = true ->
  tagged "video_frame" v2 = true ->
  run [Ev_message h1 (TextOf v1); Ev_message h2 (TextOf v2)] w
  = run [Ev_message h2 (TextOf v2); Ev_message h1 (TextOf v1)] w.
Proof.
  intros Hsu Hvf.
  assert (forall h d, ready h (after_message d w) = ready h w) as Hready.
  { intros h d. unfold ready. by rewrite Channel.after_message_sockets. }
  assert (forall h d w0, step (Ev_message h d) w0 =
            match ready h w0 with
            | Some OPEN => Some (after_message d w0)
            | _ => None
            end) as Hstep.
  { intros h d w0. destruct (step (Ev_message h d) w0) as [w'|] eqn:Hs.
    - rewrite (Channel.step_message _ _ _ _ Hs). simpl in Hs.
      by destruct (ready h w0) as [[]|].
    - simpl in Hs. by destruct (ready h w0) as [[]|]. }
  assert (after_message (TextOf v2) (after_message (TextOf v1) w)
          = after_message (TextOf v1) (after_message (TextOf v2) w)) as Hswap.
  { simpl. rewrite Hsu, Hvf.
    destruct (tagged "state_update" v2) eqn:Hsu2.
    { apply Channel.tagged_exclusive in Hsu2. congruence. }
    by destruct (has_members (field v2 "data")). }
  cbn [run]. rewrite !Hstep.
  destruct (ready h1 w) as [[]|] eqn:H1, (ready h2 w) as [[]|] eqn:H2;
    rewrite ?Hstep, ?Hready, ?H1, ?H2; try done.
  by rewrite Hswap.
Qed.

Lemma messages_with_different_tags_commute_witness :
  let update := JObject [("type", JString "state_update"); ("data", battery 79)] in
  let frame := JObject [("type", JString "video_frame");
                        ("data", JObject [("frame", JString "BBBB")])] in
  run [Ev_message 0 (TextOf update); Ev_message 0 (TextOf frame)] streaming
  = run [Ev_message 0 (TextOf frame); Ev_message 0 (TextOf update)] streaming
  /\ run [Ev_message 0 (TextOf frame); Ev_message 0 (TextOf update)] streaming
     = Some (mkState (Some 0) true (battery 79) (JString "BBBB")
                     [mkWebSocket "ws://localhost:8000/ws" OPEN] []).
Proof.
  intros update frame. split; [|reflexivity].
  exact (messages_with_different_tags_commute 0 update 0 frame streaming
           eq_refl eq_refl).
Defined.

(** X7. Delivering a message a second time changes nothing more: whatever
    the message, two deliveries in a row leave the state one delivery
    leaves. *)
Theorem repeated_message_is_idempotent h d w :
  run [Ev_message h d; Ev_message h d] w = run [Ev_message h d] w.
Proof.
  simpl. destruct (ready h w) as [[]|] eqn:Hready; try done.
  assert (task (onmessage d) w = after_message d w) as Hfirst.
  { rewrite Channel.task_same_handle; rewrite Channel.onmessage_state; [done|].
    apply Channel.after_message_ws. }
  rewrite Hfirst.
  assert (ready h (after_message d w) = Some OPEN) as ->.
  { unfold ready. by rewrite Channel.after_message_sockets. }
  f_equal.
  rewrite Channel.task_same_handle; rewrite Channel.onmessage_state;
    [|apply Channel.after_message_ws].
  destruct d as [|v]; [done|]. simpl.
  destruct (tagged "state_update" v); [done|].
  destruct (tagged "video_frame" v); [|done].
  by destruct (has_members (field v "data")).
Qed.



End Lifecycle.

(* ===================================================================== *)
(** ** Commands in sequence, and what a failure keeps *)
(* ===================================================================== *)

Module Requests.
Import UseDroneCommands.

(** X9. Commands are neither queued, merged nor dropped: the requests
    issued by commands run one after the other, whatever each is answered,
    are their POST requests in the order of the calls, a repeated command
    included. *)
Theorem commands_log_in_order_of_issue commands net log :
  foldl (fun log c => snd (dispatch c net log)) log commands
  = log ++ (post <$> commands).
Proof.
  revert log. induction commands as [|c rest IH]; intros log; simpl.
  - by rewrite app_nil_r.
  - rewrite IH, Dispatcher.dispatch_outcome. simpl.
    by rewrite <- app_assoc.
Qed.

(** X10. A failed command keeps nothing of its cause: two responses that
    are not 2xx, whatever their status codes and bodies, give the caller
    the same rejection. *)
Theorem failure_hides_status_and_body c log net1 net2 r1 r2 :
  net1 (log ++ [post c]) = Some r1 ->
  net2 (log ++ [post c]) = Some r2 ->
  ~ (200 <= status r1 <= 299)%Z ->
  ~ (200 <= status r2 <= 299)%Z ->
  dispatch c net1 log = dispatch c net2 log
  /\ fst (dispatch c net1 log) = Throw (Error "Command failed").
Proof.
  intros H1 H2 Hbad1 Hbad2.
  apply Dispatcher.not_ok_status in Hbad1, Hbad2.
  rewrite !Dispatcher.dispatch_outcome, H1, H2, Hbad1, Hbad2. done.
Qed.

Lemma failure_hides_status_and_body_witness :
  let busy : Network :=
    fun _ => Some (mkResponse 409 (Some (JObject [("detail", JString "in flight")]))) in
  let broken : Network := fun _ => Some (mkResponse 500 None) in
  dispatch Takeoff busy [] = dispatch Takeoff broken [].
Proof.
  intros busy broken.
  refine (proj1 (failure_hides_status_and_body Takeoff [] busy broken
                   _ _ eq_refl eq_refl _ _)); simpl; lia.
Defined.

End Requests.

(* ===================================================================== *)
(** ** The handlers of the controller *)
(* ===================================================================== *)

Module Controller.
Import UseDroneCommands.

#[local] Abbreviation App := DroneController.App.
#[local] Abbreviation mkApp := DroneController.mkApp.
#[local] Abbreviation channel := DroneController.channel.
#[local] Abbreviation requests := DroneController.requests.
#[local] Abbreviation toasts := DroneController.toasts.
#[local] Abbreviation mkToast := DroneController.mkToast.
#[local] Abbreviation Literal := DroneController.Literal.

Lemma command_dispatch c net app :
  DroneController.command (dispatch c) net app
  = (fst (dispatch c net (requests app)),
     mkApp (channel app) (requests app ++ [post c]) (toasts app)).
Proof.
  unfold DroneController.command. by rewrite Dispatcher.dispatch_outcome.
Qed.

Lemma hook_connect_normal w : fst (UseWebSocket.connect w) = Normal tt.
Proof. reflexivity. Qed.

Lemma hook_disconnect_normal w : fst (UseWebSocket.disconnect w) = Normal tt.
Proof. unfold UseWebSocket.disconnect. by destruct (UseWebSocket.ws w). Qed.

Lemma handleConnect_outcome net app :
  DroneController.handleConnect net app =
    (Normal JUndefined,
     match fst (dispatch Connect net (requests app)) with
     | Normal _ =>
         mkApp (UseWebSocket.task UseWebSocket.connect (channel app))
               (requests app ++ [post Connect])
               (toasts app ++
                  [mkToast "Connected"
                           (Literal "Successfully connected to the drone.")
                           DroneController.variant_default])
     | Throw error =>
         mkApp (channel app)
               (requests app ++ [post Connect])
               (toasts app ++
                  [mkToast "Connection Failed" (DroneController.message error)
                           DroneController.destructive])
     end).
Proof.
  unfold DroneController.handleConnect, DroneController.try_catch,
    DroneController.andThen, DroneController.connect.
  change (mutateAsync (fun _ : unit => connect) tt) with (dispatch Connect).
  rewrite command_dispatch.
  destruct (fst (dispatch Connect net (requests app))) as [v|error]; [done|].
  by destruct error.
Qed.

Lemma handleDisconnect_outcome net app :
  DroneController.handleDisconnect net app =
    (Normal JUndefined,
     match fst (dispatch Disconnect net (requests app)) with
     | Normal _ =>
         mkApp (UseWebSocket.task UseWebSocket.disconnect (channel app))
               (requests app ++ [post Disconnect])
               (toasts app ++
                  [mkToast "Disconnected"
                           (Literal "Successfully disconnected from the drone.")
                           DroneController.variant_default])
     | Throw error =>
         mkApp (channel app)
               (requests app ++ [post Disconnect])
               (toasts app ++
                  [mkToast "Disconnection Failed" (DroneController.message error)
                           DroneController.destructive])
     end).
Proof.
  unfold DroneController.handleDisconnect, DroneController.try_catch,
    DroneController.andThen, DroneController.disconnect.
  change (mutateAsync (fun _ : unit => disconnect) tt) with (dispatch Disconnect).
  rewrite command_dispatch.
  destruct (fst (dispatch Disconnect net (requests app))) as [v|error].
  - unfold DroneController.hook. simpl. by rewrite hook_disconnect_normal.
  - by destruct error.
Qed.

Lemma handleMove_outcome direction distance net app :
  DroneController.handleMove direction distance net app =
    (Normal JUndefined,
     mkApp (channel app)
           (requests app ++ [post (Move direction distance)])
           (toasts app ++
              match fst (dispatch (Move direction distance) net (requests app)) with
              | Normal _ => []
              | Throw error =>
                  [mkToast "Movement Failed" (DroneController.message error)
                           DroneController.destructive]
              end)).
Proof.
  unfold DroneController.handleMove, DroneController.try_catch,
    DroneController.andThen, DroneController.move.
  change (useDroneCommands_move (mkMoveVariables direction distance))
    with (dispatch (Move direction distance)).
  rewrite command_dispatch.
  destruct (fst (dispatch (Move direction distance) net (requests app)))
    as [v|error].
  - simpl. by rewrite app_nil_r.
  - by destruct error.
Qed.

Lemma handleRotate_outcome direction degrees net app :
  DroneController.handleRotate direction degrees net app =
    (Normal JUndefined,
     mkApp (channel app)
           (requests app ++ [post (Rotate direction degrees)])
           (toasts app ++
              match fst (dispatch (Rotate direction degrees) net (requests app)) with
              | Normal _ => []
              | Throw error =>
                  [mkToast "Rotation Failed" (DroneController.message error)
                           DroneController.destructive]
              end)).
Proof.
  unfold DroneController.handleRotate, DroneController.try_catch,
    DroneController.andThen, DroneController.rotate.
  change (useDroneCommands_rotate (mkRotateVariables direction degrees))
    with (dispatch (Rotate direction degrees)).
  rewrite command_dispatch.
  destruct (fst (dispatch (Rotate direction degrees) net (requests app)))
    as [v|error].
  - simpl. by rewrite app_nil_r.
  - by destruct error.
Qed.

(** *** What the handlers do with the answer of the backend *)

(** X11. [handleConnect] never rejects: it issues the one request
    [POST /connect], shows one toast, and calls the hook's [connect],
    which creates a socket, exactly when that request resolved; when it
    failed, the channel is as it was. *)
Theorem handleConnect_opens_socket_after_success net app :
  fst (DroneController.handleConnect net app) = Normal JUndefined
  /\ requests (snd (DroneController.handleConnect net app))
     = requests app ++ [post Connect]
  /\ length (toasts (snd (DroneController.handleConnect net app)))
     = S (length (toasts app))
  /\ match fst (dispatch Connect net (requests app)) with
     | Normal _ =>
         length (UseWebSocket.sockets
                   (channel (snd (DroneController.handleConnect net app))))
         = S (length (UseWebSocket.sockets (channel app)))
     | Throw _ =>
         channel (snd (DroneController.handleConnect net app)) = channel app
     end.
Proof.
  rewrite handleConnect_outcome.
  destruct (fst (dispatch Connect net (requests app))) as [v|error]; simpl;
    rewrite ?length_app; simpl; split_and!; try done; try lia.
  unfold UseWebSocket.task, UseWebSocket.flushEffects. simpl.
  case_decide; simpl.
  - rewrite length_app. simpl. lia.
  - destruct (UseWebSocket.ws (channel app)); simpl;
      rewrite ?length_alter, length_app; simpl; lia.
Qed.

(** X12. The toast "Connected" comes before the connection: when the
    backend accepts [POST /connect], [handleConnect] shows it while the
    socket it has just created is still connecting, and [isConnected] is
    what it was; only a later open event sets it. *)
Theorem connected_toast_precedes_open net app r v :
  net (requests app ++ [post Connect]) = Some r ->
  (200 <= status r <= 299)%Z ->
  parsed_body r = Some v ->
  let app' := snd (DroneController.handleConnect net app) in
  last (toasts app') =
    Some (mkToast "Connected" (Literal "Successfully connected to the drone.")
                  DroneController.variant_default)
  /\ UseWebSocket.isConnected (channel app')
     = UseWebSocket.isConnected (channel app)
  /\ UseWebSocket.ws (channel app')
     = Some (length (UseWebSocket.sockets (channel app)))
  /\ UseWebSocket.sockets (channel app')
       !! length (UseWebSocket.sockets (channel app))
     = Some UseWebSocket.socket_new.
Proof.
  intros Hr Hstatus Hbody app'. subst app'.
  rewrite handleConnect_outcome, Dispatcher.dispatch_outcome. simpl.
  apply Dispatcher.ok_status in Hstatus.
  rewrite Hr, Hstatus. unfold json. rewrite Hbody. simpl.
  split; [by rewrite last_snoc|].
  unfold UseWebSocket.task. rewrite Channel.flushEffects_isConnected,
    Channel.flushEffects_ws.
  split; [done|]. split; [done|].
  unfold UseWebSocket.flushEffects. simpl. case_decide as Hsame; simpl.
  - by apply list_lookup_middle.
  - destruct (UseWebSocket.ws (channel app)) as [p|] eqn:Hp; simpl.
    + rewrite list_lookup_alter_ne by congruence. by apply list_lookup_middle.
    + by apply list_lookup_middle.
Qed.

Lemma connected_toast_precedes_open_witness :
  let net : Network := fun _ => Some (mkResponse 200 (Some (JObject []))) in
  let app' := snd (DroneController.handleConnect net DroneController.started) in
  DroneController.title <$> toasts app' = ["Connected"]
  /\ UseWebSocket.isConnected (channel app') = false.
Proof.
  intros net app'. split; [reflexivity|].
  destruct (connected_toast_precedes_open
              net DroneController.started (mkResponse 200 (Some (JObject [])))
              (JObject []) eq_refl) as (_ & Hsame & _);
    [simpl; lia | reflexivity | exact Hsame].
Defined.



(** X14. [handleMove] and [handleRotate] never reject and never touch the
    channel: each issues the one request of its command and shows a toast
    exactly when the command failed, a destructive one that carries the
    message of the error ("Command failed" for a status that is not 2xx). *)
Theorem move_and_rotate_failures_become_toasts direction amount net app :
  DroneController.handleMove direction amount net app =
    (Normal JUndefined,
     mkApp (channel app)
           (requests app ++ [post (Move direction amount)])
           (toasts app ++
              match fst (dispatch (Move direction amount) net (requests app)) with
              | Normal _ => []
              | Throw error =>
                  [mkToast "Movement Failed" (DroneController.message error)
                           DroneController.destructive]
              end))
  /\ DroneController.handleRotate direction amount net app =
    (Normal JUndefined,
     mkApp (channel app)
           (requests app ++ [post (Rotate direction amount)])
           (toasts app ++
              match fst (dispatch (Rotate direction amount) net (requests app)) with
              | Normal _ => []
              | Throw error =>
                  [mkToast "Rotation Failed" (DroneController.message error)
                           DroneController.destructive]
              end))
  /\ (forall r, net (requests app ++ [post (Move direction amount)]) = Some r ->
                ~ (200 <= status r <= 299)%Z ->
                toasts (snd (DroneController.handleMove direction amount net app))
                = toasts app ++
                    [mkToast "Movement Failed" (Literal "Command failed")
                             DroneController.destructive]).
Proof.
  split; [apply handleMove_outcome|]. split; [apply handleRotate_outcome|].
  intros r Hr Hstatus. apply Dispatcher.not_ok_status in Hstatus.
  rewrite handleMove_outcome, Dispatcher.dispatch_outcome. simpl.
  by rewrite Hr, Hstatus.
Qed.

Lemma move_and_rotate_failures_become_toasts_witness :
  let net : Network := fun _ => Some (mkResponse 400 None) in
  toasts (snd (DroneController.handleMove "forward" 30 net DroneController.started))
  = [mkToast "Movement Failed" (Literal "Command failed")
             DroneController.destructive].
Proof.
  intros net.
  destruct (move_and_rotate_failures_become_toasts
              "forward" 30 net DroneController.started) as (_ & _ & Hfailed).
  apply (Hfailed (mkResponse 400 None) eq_refl). simpl. lia.
Defined.

End Controller.

(* ===================================================================== *)
(** ** What a user can reach from the control panel *)
(* ===================================================================== *)

Module Panel.
Import UseDroneCommands DroneControlPanel.

#[local] Abbreviation channel := DroneController.channel.
#[local] Abbreviation requests := DroneController.requests.
#[local] Abbreviation toasts := DroneController.toasts.

(** Take a position apart, one element of the panel after the other. *)
Ltac each_position i tac :=
  do 11 (destruct i as [|i]; [tac|]); tac.

(** The panel calls its props without looking into them. *)
Lemma react_props_of {H} connected (callback : Callback -> H) st g :
  react (props_of connected callback) st g =
    {| after := after (react (named connected) st g);
       called := callback <$> called (react (named connected) st g) |}.
Proof.
  destruct g as [i|i value];
    each_position i ltac:(by destruct connected).
Qed.

Lemma panel_props_wired app :
  DroneController.panel_props app
  = props_of (UseWebSocket.isConnected (channel app)) DroneController.wired.
Proof. reflexivity. Qed.

(** A gesture reaches no callback or one, and never [onTakeoff]; on a
    panel that is not connected, only the first button reaches one. *)
Lemma named_called connected st g :
  called (react (named connected) st g) = []
  \/ exists c, called (react (named connected) st g) = [c]
               /\ c <> OnTakeoff
               /\ (connected = false -> c = OnConnect /\ g = Click 0).
Proof.
  destruct g as [i|i value];
    each_position i ltac:(destruct connected; simpl;
                          first [ by left
                                | right; eexists; split; [reflexivity|];
                                  split; [discriminate|]; by intros ]).
Qed.

Lemma settle_all_one h net app :
  DroneController.settle_all [h] net app
  = ([fst (h net app)], snd (h net app)).
Proof. simpl. by destruct (h net app). Qed.

Lemma interact_named g net st app :
  DroneController.interact g net st app =
    (after (react (named (UseWebSocket.isConnected (channel app))) st g),
     fst (DroneController.settle_all
            (DroneController.wired
               <$> called (react (named (UseWebSocket.isConnected (channel app)))
                                 st g))
            net app),
     snd (DroneController.settle_all
            (DroneController.wired
               <$> called (react (named (UseWebSocket.isConnected (channel app)))
                                 st g))
            net app)).
Proof.
  unfold DroneController.interact.
  rewrite panel_props_wired, react_props_of. simpl.
  by destruct (DroneController.settle_all _ net app).
Qed.

(** Every callback but [onTakeoff] issues one request, to another endpoint
    than [/takeoff]. *)
Lemma wired_one_request c net app :
  c <> OnTakeoff ->
  exists request,
    requests (snd (DroneController.wired c net app)) = requests app ++ [request]
    /\ req_url request <> "http://localhost:8000/takeoff".
Proof.
  intros Hc. destruct c; try done; cbn [DroneController.wired].
  - rewrite Controller.handleConnect_outcome. eexists. split; [|shelve].
    by destruct (fst (dispatch Connect net (requests app))).
    Unshelve. discriminate.
  - rewrite Controller.handleDisconnect_outcome. eexists. split; [|shelve].
    by destruct (fst (dispatch Disconnect net (requests app))).
    Unshelve. discriminate.
  - change DroneController.land
      with (DroneController.command (dispatch Land)).
    rewrite Controller.command_dispatch. eexists. split; [done|discriminate].
  - rewrite Controller.handleMove_outcome. eexists. split; [done|discriminate].
  - rewrite Controller.handleRotate_outcome. eexists. split; [done|discriminate].
  - change (DroneController.flip direction)
      with (DroneController.command (dispatch (Flip direction))).
    rewrite Controller.command_dispatch. eexists. split; [done|discriminate].
  - unfold DroneController.setSpeed, DroneController.command, mutateAsync.
    rewrite Dispatcher.fetchWithBody_outcome. simpl.
    eexists. split; [done|discriminate].
  - change (DroneController.toggleTracking enabled)
      with (DroneController.command (dispatch (ToggleTracking enabled))).
    rewrite Controller.command_dispatch. eexists. split; [done|discriminate].
Qed.

(** X15. No gesture on the panel reaches [onTakeoff]: the second button
    calls it only while the panel is not connected, and then the button is
    disabled; once connected, the same button calls [onLand].  The button
    that reads "Take Off" is a disabled one. *)
Theorem takeoff_callback_is_out_of_reach connected st g :
  (OnTakeoff ∉ called (react (named connected) st g))
  /\ (forall i content disabled onClick,
        render (named connected) st !! i = Some (Button content disabled onClick) ->
        content = "Take Off" -> disabled = true)
  /\ called (react (named true) st (Click 1)) = [OnLand]
  /\ called (react (named false) st (Click 1)) = [].
Proof.
  split_and!; try done.
  - destruct (named_called connected st g) as [-> | (c & -> & Hc & _)].
    + apply not_elem_of_nil.
    + intros Hin. apply list_elem_of_singleton in Hin. congruence.
  - intros i content disabled onClick.
    destruct st as [sp []];
    each_position i ltac:(destruct connected; simpl; intros Hbutton;
                          try discriminate Hbutton;
                          injection Hbutton as <- <- <-; intros Hcontent;
                          first [reflexivity | discriminate Hcontent]).
Qed.

(** X16. A gesture issues at most one request, and never [POST /takeoff]:
    whatever the user does on the panel, in any state and whatever the
    backend answers, the log of the requests grows by nothing or by one
    request to another endpoint. *)
Theorem gesture_issues_at_most_one_request_never_takeoff g net st app :
  exists new,
    requests (snd (DroneController.interact g net st app)) = requests app ++ new
    /\ length new <= 1
    /\ forall request, request ∈ new ->
                       req_url request <> "http://localhost:8000/takeoff".
Proof.
  rewrite interact_named. simpl.
  destruct (named_called (UseWebSocket.isConnected (channel app)) st g)
    as [-> | (c & -> & Hc & _)].
  - exists []. simpl. rewrite app_nil_r. split; [done|]. split; [lia|].
    intros request Hin. by apply elem_of_nil in Hin.
  - destruct (wired_one_request c net app Hc) as (request & Hlog & Hurl).
    exists [request]. rewrite fmap_cons, fmap_nil, settle_all_one. simpl.
    split; [done|]. split; [lia|].
    intros request' Hin. by apply list_elem_of_singleton in Hin as ->.
Qed.

(** X17. While the hook reports "not connected", the panel offers one
    thing: every gesture but a click on the first button leaves the panel,
    the channel, the requests and the toasts as they were, and that click
    runs [handleConnect]. *)
Theorem disconnected_panel_only_connects g net st app :
  UseWebSocket.isConnected (channel app) = false ->
  (g <> Click 0 -> DroneController.interact g net st app = (st, [], app))
  /\ DroneController.interact (Click 0) net st app
     = (st, [fst (DroneController.handleConnect net app)],
        snd (DroneController.handleConnect net app)).
Proof.
  intros Hoff. rewrite !interact_named, Hoff. split.
  - intros Hg.
    destruct (named_called false st g) as [-> | (c & _ & _ & Honly)]; [|].
    + simpl. f_equal. f_equal.
      destruct g as [i|i value]; each_position i ltac:(done).
    + destruct (Honly eq_refl) as [_ ->]. done.
  - simpl. by destruct (DroneController.handleConnect net app).
Qed.

Lemma disconnected_panel_only_connects_witness :
  let net : Network := fun _ => Some (mkResponse 200 (Some JNull)) in
  DroneController.interact (Click 2) net mounted DroneController.started
  = (mounted, [], DroneController.started)
  /\ requests (snd (DroneController.interact (Click 0) net mounted
                                             DroneController.started))
     = [post Connect].
Proof.
  intros net.
  destruct (disconnected_panel_only_connects
              (Click 2) net mounted DroneController.started eq_refl)
    as [Hnothing _].
  destruct (disconnected_panel_only_connects
              (Click 0) net mounted DroneController.started eq_refl)
    as [_ Hconnect].
  split; [apply Hnothing; discriminate|].
  rewrite Hconnect. reflexivity.
Defined.




End Panel.

(* ===================================================================== *)
(** ** The page, whatever the channel stored *)
(* ===================================================================== *)

Module Display.
Import Views.

Lemma optional_get_normal v name :
  optional_get v name = Normal (UseWebSocket.field v name).
Proof. by destruct v. Qed.

Lemma TelemetryPanel_normal height speed flightTime :
  TelemetryPanel height speed flightTime =
    Normal (mkTelemetryView
              (nullish height (JNumber 0))
              (nullish (UseWebSocket.field speed "x") (JNumber 0))
              (nullish (UseWebSocket.field speed "y") (JNumber 0))
              (nullish (UseWebSocket.field speed "z") (JNumber 0))
              (nullish flightTime (JNumber 0))).
Proof. unfold TelemetryPanel. by rewrite !optional_get_normal. Qed.

Lemma page_normal w :
  page w =
    Normal
      (mkPage
         (StatusBar (UseWebSocket.isConnected w)
                    (UseWebSocket.field (UseWebSocket.droneState w) "battery")
                    (UseWebSocket.field (UseWebSocket.droneState w) "temperature"))
         (VideoFeed (UseWebSocket.videoFrame w))
         (mkTelemetryView
            (nullish (UseWebSocket.field (UseWebSocket.droneState w) "height")
                     (JNumber 0))
            (nullish (UseWebSocket.field
                        (UseWebSocket.field (UseWebSocket.droneState w) "speed") "x")
                     (JNumber 0))
            (nullish (UseWebSocket.field
                        (UseWebSocket.field (UseWebSocket.droneState w) "speed") "y")
                     (JNumber 0))
            (nullish (UseWebSocket.field
                        (UseWebSocket.field (UseWebSocket.droneState w) "speed") "z")
                     (JNumber 0))
            (nullish (UseWebSocket.field (UseWebSocket.droneState w) "flight_time")
                     (JNumber 0)))).
Proof.
  unfold page. rewrite !optional_get_normal. simpl.
  by rewrite TelemetryPanel_normal.
Qed.

(** X19. Reading the snapshot for the page never throws, whatever the
    channel has stored (the optional chaining guards every read); and
    while the snapshot is [null] or [undefined], as before the first
    [state_update] or after one without [data], the status bar and the
    telemetry panel are given 0 for every value. *)
Theorem page_never_throws_and_defaults_to_zero w :
  exists p,
    page w = Normal p
    /\ (UseWebSocket.has_members (UseWebSocket.droneState w) = false ->
        telemetry p = zeros
        /\ battery_shown (statusBar p) = JNumber 0
        /\ temperature_shown (statusBar p) = JNumber 0).
Proof.
  eexists. split; [apply page_normal|]. simpl.
  by destruct (UseWebSocket.droneState w).
Qed.

(** X20. The two panels treat a [null] differently: the telemetry panel
    ([?? 0]) shows 0 for a field that is [null], the status bar (a default
    parameter) shows 0 only for a field that is missing and hands a [null]
    battery or temperature on as it is. *)
Theorem null_is_defaulted_by_telemetry_not_by_status w props p :
  UseWebSocket.droneState w = JObject props ->
  page w = Normal p ->
  (own_property props "height" = Some JNull -> height_shown (telemetry p) = JNumber 0)
  /\ (own_property props "height" = None -> height_shown (telemetry p) = JNumber 0)
  /\ (own_property props "battery" = Some JNull -> battery_shown (statusBar p) = JNull)
  /\ (own_property props "battery" = None -> battery_shown (statusBar p) = JNumber 0).
Proof.
  intros Hstate. rewrite page_normal, Hstate. intros [= <-]. simpl.
  split_and!; by intros ->.
Qed.

Lemma null_is_defaulted_by_telemetry_not_by_status_witness :
  let props := [("battery", JNull); ("height", JNull)] in
  let w := UseWebSocket.mkState None false (JObject props) JNull [] [] in
  exists p,
    page w = Normal p
    /\ height_shown (telemetry p) = JNumber 0
    /\ battery_shown (statusBar p) = JNull.
Proof.
  intros props w. eexists. split; [reflexivity|].
  match goal with
  | |- height_shown (telemetry ?p) = _ /\ _ =>
      destruct (null_is_defaulted_by_telemetry_not_by_status
                  w props p eq_refl eq_refl) as (Hheight & _ & Hbattery & _)
  end.
  split; [exact (Hheight eq_refl) | exact (Hbattery eq_refl)].
Defined.

(** X21. A [video_frame] message whose [data] has no [frame], or an empty
    one, blanks the video tile: the handler stores what it finds, the
    condition of the tile finds it false, and the placeholder replaces
    whatever frame was on display. *)
Theorem empty_frame_blanks_the_video_tile h props w w' :
  UseWebSocket.step
    (UseWebSocket.Ev_message h
       (TextOf (JObject [("type", JString "video_frame");
                         ("data", JObject props)]))) w = Some w' ->
  own_property props "frame" = None
  \/ own_property props "frame" = Some (JString "") ->
  VideoFeed (UseWebSocket.videoFrame w') = NoVideoFeed.
Proof.
  intros Hstep Hframe. apply Channel.step_message in Hstep as ->. simpl.
  by destruct Hframe as [-> | ->].
Qed.

Lemma empty_frame_blanks_the_video_tile_witness :
  VideoFeed (UseWebSocket.videoFrame UseWebSocket.streaming)
  = Image (Url "data:image/jpeg;base64,AAAA")
  /\ forall w',
       UseWebSocket.step
         (UseWebSocket.Ev_message 0
            (TextOf (JObject [("type", JString "video_frame");
                              ("data", JObject [])]))) UseWebSocket.streaming
       = Some w' ->
       VideoFeed (UseWebSocket.videoFrame w') = NoVideoFeed.
Proof.
  split; [reflexivity|]. intros w' Hstep.
  apply (empty_frame_blanks_the_video_tile 0 [] UseWebSocket.streaming w' Hstep).
  by left.
Defined.

End Display.
